(** * uplogic: node evaluators, wrappers and ray-cast helpers

    A shallow embedding of the uplogic glue layer (UPBGE game engine):
    the three action nodes, the light and curve wrappers, the logic
    brick helpers and the ray-cast helpers.

    The host engine is not part of the program.  Host objects are
    modelled as references into a store of attribute cells; host
    collections ([pose.bones], [constraints]) as read-only lookup
    tables; the engine's ray-cast primitive as an oracle.  Floating
    point components of [mathutils.Vector] are idealised as real
    numbers; [normalize()] keeps the cut-off of mathutils, below which
    it returns the zero vector. *)

From Stdlib Require Import Reals Lra Lia List.
From stdpp Require Import gmap strings list fin_maps.

(** ** Python values, exceptions and the host store *)

Module Py.

Inductive Exn :=
| AttributeError
| KeyError
| TypeError
| UnboundLocalError
| LogicControllerNotSupportedError.

Inductive Res (A : Type) :=
| Ok (a : A)
| Raise (e : Exn).
Arguments Ok {A} a.
Arguments Raise {A} e.

#[global] Instance Res_ret : MRet Res := fun A a => Ok a.
#[global] Instance Res_bind : MBind Res := fun A B f m =>
  match m with
  | Ok a => f a
  | Raise e => Raise e
  end.
#[global] Instance Res_fmap : FMap Res := fun A B f m =>
  match m with
  | Ok a => Ok (f a)
  | Raise e => Raise e
  end.

(** A reference to a host object (a [KX_GameObject], a [bpy] struct, a
    collection). *)
Definition Ref := nat.

(** The values that flow through sockets and attributes.  [PWaiting]
    is the [STATUS_WAITING] sentinel of uplogic. *)
Inductive PyVal :=
| PNone
| PWaiting
| PBool (b : bool)
| PFloat (x : R)
| PStr (s : string)
| PRef (r : Ref).

(** A line on the console: text written by [print], or a value handed
    to the logger together with its message type. *)
Inductive Line :=
| Text (s : string)
| Logged (v : PyVal) (msg_type : string).

(** The host: attribute cells of host objects, the lookup tables of
    host collections, and what was written to the console. *)
Record Engine := mkEngine {
  attrs : gmap (Ref * string) PyVal;
  items : Ref -> PyVal -> option PyVal;
  console : list Line
}.

Definition set_attrs (e : Engine) (m : gmap (Ref * string) PyVal) : Engine :=
  {| attrs := m; items := items e; console := console e |}.

(** [print(s)] *)
Definition print (s : string) (e : Engine) : Engine :=
  {| attrs := attrs e; items := items e; console := console e ++ [Text s] |}.

(** [o.a] *)
Definition getattr (e : Engine) (o : PyVal) (a : string) : Res PyVal :=
  match o with
  | PRef r =>
      match attrs e !! (r, a) with
      | Some v => Ok v
      | None => Raise AttributeError
      end
  | _ => Raise AttributeError
  end.

(** [o.a = v]: host objects have a fixed set of attributes, assigning
    to one that the object does not have raises. *)
Definition setattr (e : Engine) (o : PyVal) (a : string) (v : PyVal) : Res Engine :=
  match o with
  | PRef r =>
      match attrs e !! (r, a) with
      | Some _ => Ok (set_attrs e (<[(r, a) := v]> (attrs e)))
      | None => Raise AttributeError
      end
  | _ => Raise AttributeError
  end.

(** What the host makes of a value that is assigned to an attribute of
    one of its objects.  Host attributes are typed and ranged: the
    host converts the value it is given (Blender clamps a number to
    the range of the property, so [spot_size = 10] is stored as pi),
    or raises, and stores the result. *)
Definition Conversion : Type := Ref -> string -> PyVal -> Res PyVal.

(** A host that stores every value as it is given. *)
Definition as_given : Conversion := fun _ _ v => Ok v.

(** [o.a = v] on a host that converts with [conv]; [setattr] is the
    case of a host that stores the value as given. *)
Definition assign (conv : Conversion) (e : Engine) (o : PyVal) (a : string)
  (v : PyVal) : Res Engine :=
  match o with
  | PRef r =>
      match attrs e !! (r, a) with
      | Some _ =>
          stored ← conv r a v;
          Ok (set_attrs e (<[(r, a) := stored]> (attrs e)))
      | None => Raise AttributeError
      end
  | _ => Raise AttributeError
  end.

(** [e'] is [e] after one write: the cell holds [v], every other cell,
    the collections and the console are as in [e]. *)
Definition writes_only (cell : Ref * string) (v : PyVal) (e e' : Engine) : Prop :=
  attrs e' !! cell = Some v
  /\ (forall k, k <> cell -> attrs e' !! k = attrs e !! k)
  /\ items e' = items e
  /\ console e' = console e.

(** [c[k]] on a host collection *)
Definition getitem (e : Engine) (c : PyVal) (k : PyVal) : Res PyVal :=
  match c with
  | PRef r =>
      match items e r k with
      | Some v => Ok v
      | None => Raise KeyError
      end
  | _ => Raise TypeError
  end.

End Py.
Import Py.

(** ** The action nodes

    [ULActionNode], [get_input], [_set_ready] and the helpers
    [not_met], [is_waiting], [is_invalid] and [log] live in modules of
    uplogic that the evaluators import; the evaluators are verified
    against any implementation of them. *)

Module Nodes.

Class Runtime := {
  Socket : Type;
  NodeBase : Type;
  get_input : Engine -> Socket -> PyVal;
  _set_ready : NodeBase -> NodeBase;
  not_met : list PyVal -> bool;
  is_waiting : list PyVal -> bool;
  is_invalid : Engine -> list PyVal -> bool;
  log : PyVal -> string -> Engine -> Engine
}.

(** What a call of [evaluate] leaves behind: the node, the host, and
    the exception that escaped, if any. *)
Record Outcome (N : Type) := mkOutcome {
  node : N;
  engine : Engine;
  raised : option Exn
}.
Arguments mkOutcome {N} node engine raised.
Arguments node {N} o.
Arguments engine {N} o.
Arguments raised {N} o.

Module ULSetCameraOrthoScale.
Section node.
Context `{RT : Runtime}.

Record t := mk {
  base : NodeBase;
  condition : Socket;
  camera : Socket;
  scale : Socket;
  done : PyVal
}.

Definition set_done (n : t) (v : PyVal) : t :=
  {| base := base n; condition := condition n; camera := camera n;
     scale := scale n; done := v |}.

Definition set_ready (n : t) : t :=
  {| base := _set_ready (base n); condition := condition n; camera := camera n;
     scale := scale n; done := done n |}.

Definition get_done (n : t) : PyVal := done n.

(** [evaluate()]; [store] is the host's attribute assignment. *)
Definition evaluate_with
  (store : Engine -> PyVal -> string -> PyVal -> Res Engine)
  (n : t) (e : Engine) : Outcome t :=
  let n := set_done n (PBool false) in
  let condition := get_input e (condition n) in
  if not_met [condition] then mkOutcome n e None else
  let camera := get_input e (camera n) in
  let scale := get_input e (scale n) in
  if is_waiting [camera; scale] then mkOutcome n e None else
  let n := set_ready n in
  if is_invalid e [camera] then mkOutcome n e None else
  match store e camera "ortho_scale" scale with
  | Raise x => mkOutcome n e (Some x)
  | Ok e' => mkOutcome (set_done n (PBool true)) e' None
  end.

(** [evaluate()] on a host that stores values as given. *)
Definition evaluate (n : t) (e : Engine) : Outcome t :=
  evaluate_with setattr n e.

(** The checks that stand between the call and the action. *)
Definition gated (n : t) (e : Engine) : bool :=
  not_met [get_input e (condition n)]
  || is_waiting [get_input e (camera n); get_input e (scale n)]
  || is_invalid e [get_input e (camera n)].

End node.
End ULSetCameraOrthoScale.

Module ULSetBoneConstraintInfluence.
Section node.
Context `{RT : Runtime}.

Record t := mk {
  base : NodeBase;
  condition : Socket;
  armature : Socket;
  bone : Socket;
  constraint : Socket;
  influence : Socket;
  done : PyVal
}.

Definition set_done (n : t) (v : PyVal) : t :=
  {| base := base n; condition := condition n; armature := armature n;
     bone := bone n; constraint := constraint n; influence := influence n;
     done := v |}.

Definition set_ready (n : t) : t :=
  {| base := _set_ready (base n); condition := condition n;
     armature := armature n; bone := bone n; constraint := constraint n;
     influence := influence n; done := done n |}.

Definition get_done (n : t) : PyVal := done n.

(** [armature.blenderObject.pose.bones[bone].constraints[constraint]] *)
Definition the_constraint (e : Engine) (armature bone constraint : PyVal)
  : Res PyVal :=
  bo ← getattr e armature "blenderObject";
  pose ← getattr e bo "pose";
  bones ← getattr e pose "bones";
  b ← getitem e bones bone;
  cs ← getattr e b "constraints";
  getitem e cs constraint.

(** [evaluate()]; [store] is the host's attribute assignment. *)
Definition evaluate_with
  (store : Engine -> PyVal -> string -> PyVal -> Res Engine)
  (n : t) (e : Engine) : Outcome t :=
  let n := set_done n (PBool false) in
  let condition := get_input e (condition n) in
  if not_met [condition] then mkOutcome n e None else
  let armature := get_input e (armature n) in
  let bone := get_input e (bone n) in
  let constraint := get_input e (constraint n) in
  let influence := get_input e (influence n) in
  if is_waiting [armature; bone; constraint; influence]
  then mkOutcome n e None else
  let n := set_ready n in
  if is_invalid e [armature] then mkOutcome n e None else
  match c ← the_constraint e armature bone constraint;
        store e c "influence" influence with
  | Raise x => mkOutcome n e (Some x)
  | Ok e' => mkOutcome (set_done n (PBool true)) e' None
  end.

(** [evaluate()] on a host that stores values as given. *)
Definition evaluate (n : t) (e : Engine) : Outcome t :=
  evaluate_with setattr n e.

Definition gated (n : t) (e : Engine) : bool :=
  not_met [get_input e (condition n)]
  || is_waiting [get_input e (armature n); get_input e (bone n);
                 get_input e (constraint n); get_input e (influence n)]
  || is_invalid e [get_input e (armature n)].

End node.
End ULSetBoneConstraintInfluence.

Module ULPrintValue.
Section node.
Context `{RT : Runtime}.

Record t := mk {
  base : NodeBase;
  condition : Socket;
  value : Socket;
  done : PyVal;
  msg_type : string
}.

Definition set_done (n : t) (v : PyVal) : t :=
  {| base := base n; condition := condition n; value := value n;
     done := v; msg_type := msg_type n |}.

Definition set_ready (n : t) : t :=
  {| base := _set_ready (base n); condition := condition n; value := value n;
     done := done n; msg_type := msg_type n |}.

Definition get_done (n : t) : PyVal := done n.

Definition evaluate (n : t) (e : Engine) : Outcome t :=
  let n := set_done n (PBool false) in
  let condition := get_input e (condition n) in
  if not_met [condition] then mkOutcome n e None else
  let value := get_input e (value n) in
  let n := set_ready n in
  let e := log value (msg_type n) e in
  mkOutcome (set_done n (PBool true)) e None.

Definition gated (n : t) (e : Engine) : bool :=
  not_met [get_input e (condition n)].

End node.
End ULPrintValue.

(** Modelled from the spec: [not_met] of [uplogic.utils], whose source
    is missing.  The spec calls the checks of a node "trivial
    null/waiting checks": a condition is not met when it is waiting,
    [None] or [False]. *)
Definition spec_not_met (cs : list PyVal) : bool :=
  existsb (fun c => match c with
                    | PWaiting | PNone | PBool false => true
                    | _ => false
                    end) cs.

(** Modelled from the spec: [is_waiting] of [uplogic.utils], whose
    source is missing: one of the arguments is the waiting sentinel. *)
Definition spec_is_waiting (args : list PyVal) : bool :=
  existsb (fun a => match a with PWaiting => true | _ => false end) args.

(** Modelled from the spec: [is_invalid] of [uplogic.utils], whose
    source is missing: one of the arguments is [None] or waiting. *)
Definition spec_is_invalid (e : Engine) (args : list PyVal) : bool :=
  existsb (fun a => match a with PNone | PWaiting => true | _ => false end) args.

(** Modelled from the spec: [log] of [uplogic.logging], whose source
    is missing: the value and its message type go to the console. *)
Definition spec_log (v : PyVal) (msg_type : string) (e : Engine) : Engine :=
  {| attrs := attrs e; items := items e;
     console := console e ++ [Logged v msg_type] |}.

(** Modelled from the spec: the node base class of [uplogic.nodes],
    whose source is missing.  A socket holds its value, [get_input]
    reads it, and the base class keeps the flag that [_set_ready]
    raises. *)
Definition spec_runtime : Runtime :=
  {| Socket := PyVal;
     NodeBase := bool;
     get_input := fun _ s => s;
     _set_ready := fun _ => true;
     not_met := spec_not_met;
     is_waiting := spec_is_waiting;
     is_invalid := spec_is_invalid;
     log := spec_log |}.

End Nodes.

(** ** The light wrapper ([uplogic/utils/lights.py]) *)

Module Lights.

(** The properties that [ULLight] exposes.  [Light] is a subclass that
    only changes the deprecation notice printed by the constructor; it
    inherits every property. *)
Inductive Property :=
| blenderObject
| energy
| color
| use_shadow
| shadow_clip_start
| shadow_bias
| use_custom_distance
| distance
| angle
| spot_size
| spot_blend
| radius
| parent
| worldPosition
| localPosition
| worldOrientation
| localOrientation
| worldScale
| localScale
| worldLinearVelocity
| localLinearVelocity
| worldAngularVelocity
| localAngularVelocity
| worldTransform.

Record ULLight := mkLight { game_object : PyVal }.

Section properties.

(** [KX_GameObject.setParent], a method of the host. *)
Variable setParent : Engine -> PyVal -> PyVal -> Res Engine.

(** [self.game_object.blenderObject.data] *)
Definition data (L : ULLight) (e : Engine) : Res PyVal :=
  bo ← getattr e (game_object L) "blenderObject";
  getattr e bo "data".

(** The getters. *)
Definition get (p : Property) (L : ULLight) (e : Engine) : Res PyVal :=
  match p with
  | blenderObject => getattr e (game_object L) "blenderObject"
  | energy => d ← data L e; getattr e d "energy"
  | color => d ← data L e; getattr e d "color"
  | use_shadow => d ← data L e; getattr e d "use_shadow"
  | shadow_clip_start => d ← data L e; getattr e d "shadow_buffer_clip_start"
  | shadow_bias => d ← data L e; getattr e d "shadow_buffer_bias"
  | use_custom_distance => d ← data L e; getattr e d "use_custom_distance"
  | distance => d ← data L e; getattr e d "cutoff_distance"
  | angle => d ← data L e; getattr e d "angle"
  | spot_size => d ← data L e; getattr e d "spot_size"
  | spot_blend => d ← data L e; getattr e d "spot_blend"
  | radius => d ← data L e; getattr e d "shadow_soft_size"
  | parent => getattr e (game_object L) "parent"
  | worldPosition => getattr e (game_object L) "worldPosition"
  | localPosition => getattr e (game_object L) "localPosition"
  | worldOrientation => getattr e (game_object L) "worldOrientation"
  | localOrientation => getattr e (game_object L) "localOrientation"
  | worldScale => getattr e (game_object L) "worldScale"
  | localScale => getattr e (game_object L) "localScale"
  | worldLinearVelocity => getattr e (game_object L) "worldLinearVelocity"
  | localLinearVelocity => getattr e (game_object L) "localLinearVelocity"
  | worldAngularVelocity => getattr e (game_object L) "worldAngularVelocity"
  | localAngularVelocity => getattr e (game_object L) "localAngularVelocity"
  | worldTransform => getattr e (game_object L) "worldTransform"
  end.

(** The setters; [store] is the host's attribute assignment.
    [blenderObject] is declared without a setter, so Python raises
    [AttributeError] on assignment. *)
Definition set_with
  (store : Engine -> PyVal -> string -> PyVal -> Res Engine)
  (p : Property) (v : PyVal) (L : ULLight) (e : Engine) : Res Engine :=
  match p with
  | blenderObject => Raise AttributeError
  | energy => d ← data L e; store e d "energy" v
  | color => d ← data L e; store e d "color" v
  | use_shadow => d ← data L e; store e d "use_shadow" v
  | shadow_clip_start => d ← data L e; store e d "shadow_buffer_clip_start" v
  | shadow_bias => d ← data L e; store e d "shadow_buffer_bias" v
  | use_custom_distance => d ← data L e; store e d "use_custom_distance" v
  | distance => d ← data L e; store e d "cutoff_distance" v
  | angle => d ← data L e; store e d "angle" v
  | spot_size => d ← data L e; store e d "spot_size" v
  | spot_blend => d ← data L e; store e d "spot_blend" v
  | radius => d ← data L e; store e d "shadow_soft_size" v
  | parent => setParent e (game_object L) v
  | worldPosition => store e (game_object L) "worldPosition" v
  | localPosition => store e (game_object L) "localPosition" v
  | worldOrientation => store e (game_object L) "worldOrientation" v
  | localOrientation => store e (game_object L) "localOrientation" v
  | worldScale => store e (game_object L) "worldScale" v
  | localScale => store e (game_object L) "localScale" v
  | worldLinearVelocity => store e (game_object L) "worldLinearVelocity" v
  | localLinearVelocity => store e (game_object L) "localLinearVelocity" v
  | worldAngularVelocity => store e (game_object L) "worldAngularVelocity" v
  | localAngularVelocity => store e (game_object L) "localAngularVelocity" v
  | worldTransform => store e (game_object L) "worldTransform" v
  end.

(** The setters on a host that stores values as given. *)
Definition set (p : Property) (v : PyVal) (L : ULLight) (e : Engine) : Res Engine :=
  set_with setattr p v L e.

(** [set_parent(parent)] *)
Definition set_parent (v : PyVal) (L : ULLight) (e : Engine) : Res Engine :=
  setParent e (game_object L) v.

(** The properties whose setter is an assignment to a host attribute:
    all but the read-only [blenderObject] and [parent], which calls
    the host's [setParent]. *)
Definition forwards_setter (p : Property) : bool :=
  match p with
  | blenderObject | parent => false
  | _ => true
  end.

End properties.

(** The host attribute behind a property that forwards to the data
    block of the light. *)
Definition data_field (p : Property) : option string :=
  match p with
  | energy => Some "energy"%string
  | color => Some "color"%string
  | use_shadow => Some "use_shadow"%string
  | shadow_clip_start => Some "shadow_buffer_clip_start"%string
  | shadow_bias => Some "shadow_buffer_bias"%string
  | use_custom_distance => Some "use_custom_distance"%string
  | distance => Some "cutoff_distance"%string
  | angle => Some "angle"%string
  | spot_size => Some "spot_size"%string
  | spot_blend => Some "spot_blend"%string
  | radius => Some "shadow_soft_size"%string
  | _ => None
  end.

(** The host attribute behind a property that forwards to the game
    object itself. *)
Definition object_field (p : Property) : option string :=
  match p with
  | worldPosition => Some "worldPosition"%string
  | localPosition => Some "localPosition"%string
  | worldOrientation => Some "worldOrientation"%string
  | localOrientation => Some "localOrientation"%string
  | worldScale => Some "worldScale"%string
  | localScale => Some "localScale"%string
  | worldLinearVelocity => Some "worldLinearVelocity"%string
  | localLinearVelocity => Some "localLinearVelocity"%string
  | worldAngularVelocity => Some "worldAngularVelocity"%string
  | localAngularVelocity => Some "localAngularVelocity"%string
  | worldTransform => Some "worldTransform"%string
  | _ => None
  end.

Section unique.

(** [data.copy()], an operation of the host: the copy, and the host
    that holds it. *)
Variable copy : Engine -> PyVal -> Res (PyVal * Engine).

(** [make_unique_light(light)] *)
Definition make_unique_light (light : PyVal) (e : Engine)
  : Res (PyVal * Engine) :=
  lamp ← getattr e light "blenderObject";
  d ← getattr e lamp "data";
  copied ← copy e d;
  e' ← setattr copied.2 lamp "data" copied.1;
  Ok (light, e').

End unique.

(** What a copy of the data block [d] is: a block [d'] that the host
    did not have, with the attributes of [d], in a host [e'] that is
    otherwise [e]. *)
Definition fresh_copy (e : Engine) (d d' : Ref) (e' : Engine) : Prop :=
  (forall a, attrs e !! (d', a) = None)
  /\ (forall a, attrs e' !! (d', a) = attrs e !! (d, a))
  /\ (forall r a, r <> d' -> attrs e' !! (r, a) = attrs e !! (r, a)).

End Lights.

(** ** Logic bricks and the curve wrapper ([uplogic/utils/objects.py]) *)

Module Objects.

Module Sensor.
Record t := mk { positive : bool }.
End Sensor.

Module Controller.
Record t := mk {
  name : string;
  sensors : list Sensor.t;
  actuators : list string
}.
End Controller.

(** What the two functions read of the owner: [owner.controllers], and
    the [type] of each entry of
    [owner.blenderObject.game.controllers]. *)
Record Owner := mkOwner {
  controllers : gmap string Controller.t;
  game_controllers : gmap string string
}.

(** [d[k]] on a collection keyed by name *)
Definition subscript {A : Type} (d : gmap string A) (k : string) : Res A :=
  match d !! k with
  | Some a => Ok a
  | None => Raise KeyError
  end.

(** [x in l], [l.count(x)] and [l[0]] on lists of booleans *)
Definition py_in (x : bool) (l : list bool) : bool :=
  existsb (Bool.eqb x) l.

Definition py_count (x : bool) (l : list bool) : nat :=
  count_occ Bool.bool_dec l x.

(** [[sens.positive for sens in cont.sensors]] *)
Definition positives (cont : Controller.t) : list bool :=
  map Sensor.positive (Controller.sensors cont).

Definition controller_brick_status (owner : Owner) (controller_name : string)
  : Res bool :=
  cont ← subscript (controllers owner) controller_name;
  state ← subscript (game_controllers owner) controller_name;
  match Controller.sensors cont with
  | [] => Ok false
  | first :: _ =>
      if String.eqb state "LOGIC_AND" then
        Ok (negb (py_in false (positives cont)))
      else if String.eqb state "LOGIC_OR" then
        Ok (py_in true (positives cont))
      else if String.eqb state "LOGIC_NAND" then
        Ok (py_in false (positives cont))
      else if String.eqb state "LOGIC_NOR" then
        Ok (negb (py_in true (positives cont)))
      else if String.eqb state "LOGIC_XOR" then
        Ok (negb (py_count true (positives cont) mod 2 =? 0))
      else if String.eqb state "LOGIC_XNOR" then
        let check := Sensor.positive first in
        Ok (negb (py_in false
                    (map (fun sens => Bool.eqb (Sensor.positive sens) check)
                         (Controller.sensors cont))))
      else Raise LogicControllerNotSupportedError
  end.

(** [ControllerBrick], a tuple with named accessors. *)
Module ControllerBrick.
Record t := mk {
  brick : Controller.t;
  positive : bool;
  sensors : list Sensor.t;
  actuators : list string
}.
Definition name (b : t) : string := Controller.name (brick b).
End ControllerBrick.

Definition controller_brick (owner : Owner) (controller_name : string)
  : Res ControllerBrick.t :=
  cont ← subscript (controllers owner) controller_name;
  state ← subscript (game_controllers owner) controller_name;
  let make b :=
    ControllerBrick.mk cont b (Controller.sensors cont) (Controller.actuators cont) in
  match Controller.sensors cont with
  | [] => Ok (make false)
  | first :: _ =>
      if String.eqb state "LOGIC_AND" then
        Ok (make (negb (py_in false (positives cont))))
      else if String.eqb state "LOGIC_OR" then
        Ok (make (py_in true (positives cont)))
      else if String.eqb state "LOGIC_NAND" then
        Ok (make (py_in false (positives cont)))
      else if String.eqb state "LOGIC_NOR" then
        Ok (make (negb (py_in true (positives cont))))
      else if String.eqb state "LOGIC_XOR" then
        Ok (make (negb (py_count true (positives cont) mod 2 =? 0)))
      else if String.eqb state "LOGIC_XNOR" then
        let check := Sensor.positive first in
        Ok (make (negb (py_in false
                          (map (fun sens => Bool.eqb (Sensor.positive sens) check)
                               (Controller.sensors cont)))))
      else Raise LogicControllerNotSupportedError
  end.

(** The controller types that both functions evaluate. *)
Definition supported (state : string) : bool :=
  existsb (String.eqb state)
    ["LOGIC_AND"; "LOGIC_OR"; "LOGIC_NAND"; "LOGIC_NOR"; "LOGIC_XOR";
     "LOGIC_XNOR"].

(** [ULCurve] wraps the game object made by [create_curve]; [Curve] is
    a subclass that only changes the deprecation notice printed by the
    constructor. *)
Module ULCurve.
Record t := mk { object : PyVal }.

(** [name] getter *)
Definition name (c : t) (e : Engine) : Res PyVal :=
  getattr e (object c) "name".

(** [name] setter *)
Definition set_name (c : t) (val : PyVal) (e : Engine) : Engine :=
  print "ULCurve.name is read-only!" e.

(** [bevel_depth] getter and setter *)
Definition bevel_depth (c : t) (e : Engine) : Res PyVal :=
  bo ← getattr e (object c) "blenderObject";
  d ← getattr e bo "data";
  getattr e d "bevel_depth".

Definition set_bevel_depth (c : t) (val : PyVal) (e : Engine) : Res Engine :=
  bo ← getattr e (object c) "blenderObject";
  d ← getattr e bo "data";
  setattr e d "bevel_depth" val.
End ULCurve.

End Objects.

(** ** Ray-cast helpers ([uplogic/utils/raycasting.py]) *)

Module Raycasting.
Local Open Scope R_scope.

(** [mathutils.Vector] with three components. *)
Module Vector.
Record t := mk { x : R; y : R; z : R }.

Definition zero : t := mk 0 0 0.
Definition add (a b : t) : t := mk (x a + x b) (y a + y b) (z a + z b).
Definition sub (a b : t) : t := mk (x a - x b) (y a - y b) (z a - z b).
(** [v * k] and [k * v] *)
Definition scale (v : t) (k : R) : t := mk (x v * k) (y v * k) (z v * k).
(** [v.length] *)
Definition length (v : t) : R := sqrt (x v * x v + y v * y v + z v * z v).
(** [v.length_squared] *)
Definition length_squared (v : t) : R := x v * x v + y v * y v + z v * z v.
(** The squared length that [normalize()] of mathutils asks for: it
    divides by the length only when the squared length is above
    [1.0e-35], and sets every other vector to zero. *)
Definition normalize_cutoff : R := 1e-35.
(** The value of [v] after [v.normalize()]. *)
Definition normalized (v : t) : t :=
  if Rlt_dec normalize_cutoff (length_squared v)
  then scale v (/ length v)
  else zero.
#[global] Instance eq_dec : EqDecision t.
Proof.
  intros [x1 y1 z1] [x2 y2 z2].
  destruct (Req_dec_T x1 x2) as [->|Hx]; [|right; congruence].
  destruct (Req_dec_T y1 y2) as [->|Hy]; [|right; congruence].
  destruct (Req_dec_T z1 z2) as [->|Hz]; [|right; congruence].
  by left.
Defined.
End Vector.

#[global] Instance Rgt_decision (a b : R) : Decision (a > b) := Rgt_dec a b.

Declare Scope vector_scope.
Delimit Scope vector_scope with V.
Bind Scope vector_scope with Vector.t.
Infix "+" := Vector.add : vector_scope.
Infix "-" := Vector.sub : vector_scope.

(** The result of the engine's [rayCast]: [(obj, point, normal)], or
    three times [None] when nothing is hit. *)
Definition Hit : Type := option (Ref * Vector.t * Vector.t).

(** What the helpers read of the running engine. *)
Record Scene := mkScene {
  worldPosition : Ref -> Vector.t;
  (** [caster.rayCast(objto, objfrom, dist, prop, xray=, mask=)] *)
  rayCast : Ref -> Vector.t -> Vector.t -> R -> string -> bool -> Z -> Hit;
  (** [slot.material] of each slot of [obj.blenderObject.material_slots]:
      the name of its material, or [None] for an empty slot *)
  material_slots : Ref -> list (option string);
  getPropertyNames : Ref -> list string;
  gravity : Vector.t;
  active_camera : Ref;
  mouse_position : R * R;
  getScreenVect : Ref -> R -> R -> Vector.t
}.

(** An argument that is a vector or a game object. *)
Inductive Place :=
| AtVector (v : Vector.t)
| AtObject (o : Ref).

(** [getattr(p, 'worldPosition', p)] *)
Definition position (s : Scene) (p : Place) : Vector.t :=
  match p with
  | AtVector v => v
  | AtObject o => worldPosition s o
  end.

(** A call of [render.drawLine]. *)
Record Draw := mkDraw {
  draw_from : Vector.t;
  draw_to : Vector.t;
  draw_color : list R
}.

(** The destination after the [local] adjustment of [ray_data]. *)
Definition adjusted_dest (s : Scene) (origin dest : Place) (local : bool)
  : Vector.t :=
  if local then (position s origin + position s dest)%V else position s dest.

Section helpers.
Variable s : Scene.

Definition ray_data (origin dest : Place) (local : bool) (dist : R)
  : Vector.t * R * Vector.t :=
  let origin := position s origin in
  let dest := position s dest in
  let dest := if local then (origin + dest)%V else dest in
  let d := Vector.normalized (dest - origin) in
  let dist := if Req_dec_T dist 0 then Vector.length (origin - dest) else dist in
  let dest := (origin + Vector.scale d dist)%V in
  (d, dist, dest).

(** [[slot.material.name for slot in bo.material_slots]] *)
Fixpoint material_names (slots : list (option string)) : Res (list string) :=
  match slots with
  | [] => Ok []
  | None :: _ => Raise AttributeError
  | Some name :: rest => names ← material_names rest; Ok (name :: names)
  end.

(** [x in l] on a list of strings *)
Definition str_in (x : string) (l : list string) : bool :=
  existsb (String.eqb x) l.

(** [bool(s)] of a string *)
Definition nonempty (x : string) : bool := negb (String.eqb x "").

Section raycast.
Variables (caster : Ref) (origin dest : Vector.t) (distance : R)
          (prop material exclude_prop : string) (exclude xray : bool).

(** The first operand of the [while] condition. *)
Definition filtered_out (obj : Ref) : Res bool :=
  if exclude then
    names ← material_names (material_slots s obj);
    Ok (str_in material names || str_in exclude_prop (getPropertyNames s obj))
  else
    names ← material_names (material_slots s obj);
    Ok (negb (str_in material names)).

(** The [while] loop; [None] when the fuel runs out. *)
Fixpoint filter_loop (fuel : nat) (obj : Ref) (point normal : Vector.t)
  (leftover_dist : R) : option (Res Hit) :=
  match fuel with
  | O => None
  | S fuel =>
      match filtered_out obj with
      | Raise e => Some (Raise e)
      | Ok c =>
          if c && bool_decide (leftover_dist > 0) then
            if negb xray then Some (Ok None)
            else
              let old_point := point in
              match rayCast s obj dest point leftover_dist prop xray 65535 with
              | None => Some (Ok None)
              | Some (obj, point, normal) =>
                  filter_loop fuel obj point normal
                    (leftover_dist - Vector.length (origin - old_point))
              end
          else Some (Ok (Some (obj, point, normal)))
      end
  end.

End raycast.

Definition raycast (fuel : nat) (caster : Ref) (origin dest : Vector.t)
  (distance : R) (prop material : string) (exclude xray local : bool)
  (mask : Z) (visualize : bool)
  : option (Res (Hit * Vector.t * list Draw)) :=
  let exclude_prop := prop in
  let prop := if exclude then ""%string else prop in
  let '(direction, distance, dest) :=
    ray_data (AtVector origin) (AtVector dest) local distance in
  let first := rayCast s caster dest origin distance prop xray mask in
  let filtered :=
    match first with
    | Some (obj, point, normal) =>
        if nonempty material
           || (exclude && str_in exclude_prop (getPropertyNames s obj))
        then
          filter_loop origin dest prop material exclude_prop exclude xray
            fuel obj point normal
            (distance - Vector.length (origin - point))
        else Some (Ok first)
    | None => Some (Ok None)
    end in
  match filtered with
  | None => None
  | Some (Raise e) => Some (Raise e)
  | Some (Ok hit) =>
      let drawn :=
        if visualize then
          let line_dest := (Vector.scale direction distance + origin)%V in
          match hit with
          | None => [mkDraw origin line_dest [1; 0; 0; 1]]
          | Some (_, point, _) => [mkDraw origin point [0; 1; 0; 1]]
          end
        else [] in
      Some (Ok (hit, direction, drawn))
  end.

Definition raycast_mouse (fuel : nat) (distance : R) (prop material : string)
  (exclude xray : bool) (mask : Z)
  : option (Res (Hit * Vector.t * list Draw)) :=
  let camera := active_camera s in
  let mpos := mouse_position s in
  let vec := Vector.scale (getScreenVect s camera mpos.1 mpos.2) 10 in
  let ray_target := (worldPosition s camera - vec)%V in
  raycast fuel camera (worldPosition s camera) ray_target distance prop
    material exclude xray false mask false.

(** *** [raycast_projectile] *)

Definition calc_projectile (t : R) (vel pos : Vector.t) : Vector.t :=
  let half := Vector.z (gravity s) * (0.5 * t * t) in
  let vel := Vector.scale vel t in
  (Vector.mk 0 0 half + vel + pos)%V.

(** The variables of the stepping loop.  [hit] is [None] as long as
    [obj], [point] and [normal] are unbound. *)
Record Loop := mkLoop {
  points : list Vector.t;
  idx : R;
  total_dist : R;
  hit : option Hit
}.

Inductive Run :=
| Finished (st : Loop)
| OutOfFuel (st : Loop).

Definition state (r : Run) : Loop :=
  match r with Finished st | OutOfFuel st => st end.

Section projectile.
Variables (caster : Ref) (origin aim : Vector.t) (distance resolution : R)
          (prop : string) (xray : bool) (mask : Z).

Fixpoint projectile_loop (fuel : nat) (st : Loop) : Run :=
  if Rlt_dec (total_dist st) distance then
    match fuel with
    | O => OutOfFuel st
    | S fuel =>
        let target := calc_projectile (idx st) aim origin in
        let start := List.last (points st) origin in
        let h := rayCast s caster start target 0 prop xray mask in
        let total := total_dist st + Vector.length (target - start) in
        match h with
        | None =>
            projectile_loop fuel
              (mkLoop (points st ++ [target]) (idx st + resolution) total (Some h))
        | Some (_, point, _) =>
            Finished (mkLoop (points st ++ [point]) (idx st) total (Some h))
        end
    end
  else Finished st.

End projectile.

(** [for i, p in enumerate(points): if i < len(points) - 1: drawLine(...)] *)
Fixpoint polyline (points : list Vector.t) (color : list R) : list Draw :=
  match points with
  | p :: (q :: _) as rest => mkDraw p q color :: polyline rest color
  | _ => []
  end.

(** The loop as [raycast_projectile] starts it: [aim] normalised and
    multiplied by [power], [origin] moved to the caster when [local]
    is set. *)
Definition projectile_velocity (aim : Vector.t) (power : R) : Vector.t :=
  Vector.scale (Vector.normalized aim) power.

Definition projectile_origin (caster : Ref) (origin : Place) (local : bool)
  : Vector.t :=
  let origin := position s origin in
  if local then (origin + worldPosition s caster)%V else origin.

Definition projectile_run (fuel : nat) (caster : Ref) (origin : Place)
  (aim : Vector.t) (power distance resolution : R) (prop : string)
  (xray local : bool) (mask : Z) : Run :=
  let aim := projectile_velocity aim power in
  let origin := projectile_origin caster origin local in
  projectile_loop caster origin aim distance resolution prop xray mask
    fuel (mkLoop [] 0 0 None).

Definition raycast_projectile (fuel : nat) (caster : Ref) (origin : Place)
  (aim : Vector.t) (power distance resolution : R) (prop : string)
  (xray local : bool) (mask : Z) (visualize : bool)
  : option (Res (Hit * list Vector.t * list Draw)) :=
  match projectile_run fuel caster origin aim power distance resolution prop
          xray local mask with
  | OutOfFuel _ => None
  | Finished st =>
      match hit st with
      | None => Some (Raise UnboundLocalError)
      | Some h =>
          let color := match h with None => [1; 0; 0] | Some _ => [0; 1; 0] end in
          let drawn := if visualize then polyline (points st) color else [] in
          Some (Ok (h, points st, drawn))
      end
  end.

(** *** The trajectory in closed form *)

(** The step parameter after [k] iterations: it starts at 0 and
    advances by [resolution]. *)
Fixpoint step_parameter (resolution : R) (k : nat) : R :=
  match k with
  | O => 0
  | S k => step_parameter resolution k + resolution
  end.

(** [origin + t*v + (0, 0, g*t*t/2)] *)
Definition trajectory (origin v : Vector.t) (t : R) : Vector.t :=
  (origin + Vector.scale v t
   + Vector.mk 0 0 (Vector.z (gravity s) * t * t / 2))%V.

Section samples.
Variables (origin v : Vector.t) (resolution : R).

(** The sample of iteration [k], and the point the ray of iteration
    [k] is cast towards: the previous sample, or [origin] at the
    start. *)
Definition sample (k : nat) : Vector.t :=
  trajectory origin v (step_parameter resolution k).

Definition previous (k : nat) : Vector.t :=
  match k with
  | O => origin
  | S j => sample j
  end.

(** The length of the first [k] segments. *)
Fixpoint travelled (k : nat) : R :=
  match k with
  | O => 0
  | S j => travelled j + Vector.length (sample j - previous j)
  end.

(** The loop variables after [k] iterations without a hit. *)
Definition advanced (k : nat) : Loop :=
  mkLoop (map sample (seq 0 k)) (step_parameter resolution k) (travelled k)
    (match k with O => None | S _ => Some None end).

(** What holds of a run of the loop: the first [k] rays missed and
    left the samples 0 to [k - 1] behind; if the run ended on a hit,
    it was the ray of iteration [k], and its hit point is the last
    point. *)
Definition sampled (caster : Ref) (prop : string) (xray : bool) (mask : Z)
  (r : Run) : Prop :=
  exists k,
    (forall i, (i < k)%nat ->
       rayCast s caster (previous i) (sample i) 0 prop xray mask = None)
    /\ match hit (state r) with
       | Some (Some (obj, point, normal)) =>
           rayCast s caster (previous k) (sample k) 0 prop xray mask
           = Some (obj, point, normal)
           /\ points (state r) = map sample (seq 0 k) ++ [point]
           /\ r = Finished (state r)
       | _ => points (state r) = map sample (seq 0 k)
       end.

End samples.

(** Where the loop stops: the distance is covered or an object is hit. *)
Definition stopped (distance : R) (st : Loop) : Prop :=
  distance <= total_dist st \/ exists h, hit st = Some (Some h).

(** *** [raycast_face] *)

(** What the engine adds to a hit when asked with [poly=2]: the polygon
    that was hit and the UV coordinates of the hit point, each [None]
    when the object has none. *)
Definition FaceInfo : Type := option Ref * option (R * R).

Section raycast_face.

(** [caster.rayCast(objto, objfrom, dist, prop, xray=, poly=2, mask=)]:
    [(obj, point, normal, face, uv)], or five times [None]. *)
Variable rayCast_poly :
  Ref -> Vector.t -> Vector.t -> R -> string -> bool -> Z ->
  option (Ref * Vector.t * Vector.t * FaceInfo).

Fixpoint face_loop (origin dest : Vector.t)
  (prop material exclude_prop : string) (exclude xray : bool)
  (fuel : nat) (obj : Ref) (point normal : Vector.t) (face : FaceInfo)
  (leftover_dist : R) : option (Res (Hit * FaceInfo)) :=
  match fuel with
  | O => None
  | S fuel =>
      match filtered_out material exclude_prop exclude obj with
      | Raise e => Some (Raise e)
      | Ok c =>
          if c && bool_decide (leftover_dist > 0) then
            if negb xray then Some (Ok (None, face))
            else
              let old_point := point in
              match rayCast_poly obj dest point leftover_dist prop xray 65535 with
              | None => Some (Ok (None, (None, None)))
              | Some (obj, point, normal, face) =>
                  face_loop origin dest prop material exclude_prop exclude
                    xray fuel obj point normal face
                    (leftover_dist - Vector.length (origin - old_point))
              end
          else Some (Ok (Some (obj, point, normal), face))
      end
  end.

Definition raycast_face (fuel : nat) (caster : Ref) (origin dest : Place)
  (distance : R) (prop material : string) (exclude xray local : bool)
  (mask : Z) (visualize : bool)
  : option (Res (Hit * Vector.t * FaceInfo * list Draw)) :=
  let exclude_prop := prop in
  let prop := if exclude then ""%string else prop in
  let '(direction, distance, dest) := ray_data origin dest local distance in
  let origin := position s origin in
  let first := rayCast_poly caster dest origin distance prop xray mask in
  let filtered :=
    match first with
    | Some (obj, point, normal, face) =>
        if nonempty material || exclude then
          face_loop origin dest prop material exclude_prop exclude xray
            fuel obj point normal face
            (distance - Vector.length (origin - point))
        else Some (Ok (Some (obj, point, normal), face))
    | None => Some (Ok (None, (None, None)))
    end in
  match filtered with
  | None => None
  | Some (Raise e) => Some (Raise e)
  | Some (Ok (hit, face)) =>
      let drawn :=
        if visualize then
          let line_dest := (Vector.scale direction distance + origin)%V in
          match hit with
          | None => [mkDraw origin line_dest [1; 0; 0; 1]]
          | Some (_, point, _) => [mkDraw origin point [0; 1; 0; 1]]
          end
        else [] in
      Some (Ok (hit, direction, face, drawn))
  end.

End raycast_face.

(** The part of a result of [raycast_face] that [raycast] returns too. *)
Definition without_face (r : Hit * Vector.t * FaceInfo * list Draw)
  : Hit * Vector.t * list Draw :=
  let '(hit, direction, _, drawn) := r in (hit, direction, drawn).

Definition hit_of (h : Ref * Vector.t * Vector.t * FaceInfo)
  : Ref * Vector.t * Vector.t :=
  let '(obj, point, normal, _) := h in (obj, point, normal).

End helpers.

End Raycasting.

(** ** Moving an object ([move_to] of [uplogic/utils/objects.py]) *)

Module Motion.
Import Raycasting.
Local Open Scope R_scope.

(** What [move_to] reads and writes of the game object. *)
Record Body := mkBody {
  worldPosition : Vector.t;
  worldLinearVelocity : Vector.t
}.

Definition move_to (moving_object : Body) (destination_point : Vector.t)
  (speed time_per_frame : R) (dynamic : bool) (distance : R)
  : bool * Body :=
  if dynamic then
    let direction := (destination_point - worldPosition moving_object)%V in
    let dst := Vector.length direction in
    if Rle_dec dst distance then (true, moving_object) else
    let direction := Vector.mk (Vector.x direction) (Vector.y direction) 0 in
    let direction := Vector.normalized direction in
    let velocity := Vector.scale direction speed in
    let velocity :=
      Vector.mk (Vector.x velocity) (Vector.y velocity)
        (Vector.z (worldLinearVelocity moving_object)) in
    (false, mkBody (worldPosition moving_object) velocity)
  else
    let direction := (destination_point - worldPosition moving_object)%V in
    let dst := Vector.length direction in
    if Rle_dec dst distance then (true, moving_object) else
    let direction := Vector.normalized direction in
    let displacement := speed * time_per_frame in
    let motion := Vector.scale direction displacement in
    (false,
     mkBody (worldPosition moving_object + motion)%V
       (worldLinearVelocity moving_object)).

(** The object after [n] frames of [move_to] without physics, each
    with the same arguments. *)
Fixpoint move_steps (n : nat) (moving_object : Body)
  (destination_point : Vector.t) (speed time_per_frame distance : R) : Body :=
  match n with
  | O => moving_object
  | S n =>
      move_steps n
        (move_to moving_object destination_point speed time_per_frame false
           distance).2
        destination_point speed time_per_frame distance
  end.

End Motion.

(** ** Widgets ([uplogic/ui/button.py], [uplogic/ui/cursor.py]) *)

Module Ui.

(** The two flags of the canvas that buttons read and write. *)
Record Canvas := mkCanvas {
  _hover_consumed : bool;
  _click_consumed : bool
}.

(** What a widget calls while it is drawn: its own callbacks, the
    drawing interface, and the [draw] of its base class. *)
Inductive Call :=
| on_hover
| on_click
| on_hold
| on_release
| line_width_set (w : R)
| point_size_set (w : R)
| uniform_float (name : string) (color : list R)
| batch_draw
| batch_line_draw
| batch_points_draw
| widget_draw
| blend_set (mode : string)
| shader_bind
| uniform_sampler (name : string)
| cursor_batch_draw.

Module Button.

Record t := mk {
  bg_color : list R;
  hover_color : list R;
  border_color : list R;
  border_width : R;
  _clicked : bool;
  _released : bool;
  _in_focus : bool;
  _down : bool
}.

Definition with_flags (b : t) (clicked released in_focus down : bool) : t :=
  mk (bg_color b) (hover_color b) (border_color b) (border_width b)
    clicked released in_focus down.

(** [draw()].  [hover] is [self.hover], [lmb] is
    [MOUSE_EVENTS[LMB].active], and [children] is what [super().draw()],
    which draws the widgets inside the button, does to the canvas. *)
Definition draw (children : Canvas -> Canvas) (hover lmb : bool)
  (b : t) (canvas : Canvas) : t * Canvas * list Call :=
  let in_focus := hover in
  let calls := if hover then [on_hover] else [] in
  let canvas :=
    if hover then mkCanvas true (_click_consumed canvas) else canvas in
  let calls :=
    calls ++ [line_width_set (border_width b);
              point_size_set (border_width b);
              uniform_float "color"
                (if in_focus then hover_color b else bg_color b);
              batch_draw;
              uniform_float "color" (border_color b);
              batch_line_draw;
              batch_points_draw;
              widget_draw] in
  let canvas := children canvas in
  if in_focus && lmb && negb (_click_consumed canvas) then
    (with_flags b true false in_focus true,
     mkCanvas (_hover_consumed canvas) true,
     calls ++ [on_click])
  else if negb lmb && _down b then
    (with_flags b false true in_focus false,
     mkCanvas (_hover_consumed canvas) false,
     calls ++ [on_release])
  else if _down b then
    (with_flags b false false in_focus (_down b), canvas, calls ++ [on_hold])
  else
    (with_flags b false false in_focus (_down b), canvas, calls).

(** One [draw] per frame; a frame says whether the pointer is over the
    button and whether the left mouse button is held. *)
Fixpoint frames (children : Canvas -> Canvas) (fs : list (bool * bool))
  (b : t) (canvas : Canvas) : t * Canvas * list Call :=
  match fs with
  | [] => (b, canvas, [])
  | (hover, lmb) :: fs =>
      let '(b, canvas, calls) := draw children hover lmb b canvas in
      let '(b, canvas, more) := frames children fs b canvas in
      (b, canvas, calls ++ more)
  end.

(** The calls of the click callbacks among [calls]. *)
Definition clicks (calls : list Call) : list Call :=
  List.filter (fun c => match c with
                        | on_click | on_hold | on_release => true
                        | _ => false
                        end) calls.

End Button.

(** [LabelButton] is a [Button] with a [Label] inside; the attributes
    of the label are taken as plain fields. *)
Module LabelButton.

Record Label := mkLabel {
  text : PyVal;
  pos : PyVal;
  font : PyVal;
  font_size : PyVal;
  font_color : PyVal;
  line_height : PyVal;
  halign : PyVal;
  valign : PyVal
}.

Record t := mk { button : Button.t; label : Label }.

Inductive Property :=
| p_text
| p_text_pos
| p_font
| p_font_size
| p_font_color
| p_line_height
| p_halign_text
| p_valign_text.

(** The getters.  [font_size] is declared twice: first as a property
    that reads [label.font_size], then again under [@text.setter],
    which makes it a copy of the property [text] with a new setter, so
    its getter is the getter of [text]. *)
Definition get (p : Property) (lb : t) : PyVal :=
  match p with
  | p_text => text (label lb)
  | p_text_pos => pos (label lb)
  | p_font => font (label lb)
  | p_font_size => text (label lb)
  | p_font_color => font_color (label lb)
  | p_line_height => line_height (label lb)
  | p_halign_text => halign (label lb)
  | p_valign_text => valign (label lb)
  end.

Definition set (p : Property) (val : PyVal) (lb : t) : t :=
  let l := label lb in
  mk (button lb)
    match p with
    | p_text =>
        mkLabel val (pos l) (font l) (font_size l) (font_color l)
          (line_height l) (halign l) (valign l)
    | p_text_pos =>
        mkLabel (text l) val (font l) (font_size l) (font_color l)
          (line_height l) (halign l) (valign l)
    | p_font =>
        mkLabel (text l) (pos l) val (font_size l) (font_color l)
          (line_height l) (halign l) (valign l)
    | p_font_size =>
        mkLabel (text l) (pos l) (font l) val (font_color l)
          (line_height l) (halign l) (valign l)
    | p_font_color =>
        mkLabel (text l) (pos l) (font l) (font_size l) val
          (line_height l) (halign l) (valign l)
    | p_line_height =>
        mkLabel (text l) (pos l) (font l) (font_size l) (font_color l)
          val (halign l) (valign l)
    | p_halign_text =>
        mkLabel (text l) (pos l) (font l) (font_size l) (font_color l)
          (line_height l) val (valign l)
    | p_valign_text =>
        mkLabel (text l) (pos l) (font l) (font_size l) (font_color l)
          (line_height l) (halign l) val
    end.

End LabelButton.

Module Cursor.

Inductive Exn :=
| IndexError
| ValueError.

Record t := mk {
  show : bool;
  pos : R * R;
  (** the callable [self.draw], as the scene's list knows it *)
  draw_callback : nat
}.

(** [l.remove(x)]: without the first item equal to [x]; [None] when
    there is none. *)
Fixpoint remove (x : nat) (l : list nat) : option (list nat) :=
  match l with
  | [] => None
  | y :: l =>
      if decide (y = x) then Some l
      else match remove x l with
           | Some l' => Some (y :: l')
           | None => None
           end
  end.

(** [draw()], given the mouse position and [scene.post_draw].
    [self.draw] is a new bound method each time it is read, so it is
    never identical to the one in the list and the callback is taken
    out and put back at the end on every call. *)
Definition draw (c : t) (mouse : R * R) (post_draw : list nat)
  : (t * list nat * list Call) + Exn :=
  match post_draw with
  | [] => inr IndexError
  | _ :: _ =>
      match remove (draw_callback c) post_draw with
      | None => inr ValueError
      | Some l =>
          let post_draw := l ++ [draw_callback c] in
          if show c then
            inl (mk (show c) mouse (draw_callback c), post_draw,
                 [blend_set "ALPHA"; shader_bind; uniform_sampler "image";
                  cursor_batch_draw])
          else inl (c, post_draw, [blend_set "ALPHA"])
      end
  end.

End Cursor.

End Ui.

(** ** Concrete hosts used in examples *)

Module Examples.

(** A light: game object 0, its [bpy] object 1, its data block 2. *)
Definition light_engine : Engine :=
  mkEngine
    (<[(0%nat, "blenderObject"%string) := PRef 1]>
      (<[(0%nat, "worldPosition"%string) := PNone]>
      (<[(1%nat, "data"%string) := PRef 2]>
      (<[(2%nat, "energy"%string) := PFloat 10]>
      (<[(2%nat, "spot_size"%string) := PFloat 1]> ∅)))))
    (fun _ _ => None) [].

Definition the_light : Lights.ULLight := Lights.mkLight (PRef 0).

(** A host that keeps numbers within the range of the attribute, as
    Blender does: [spot_size] between one degree and pi, [influence]
    between 0 and 1.  Anything else is stored as given. *)
Definition clamp (lo hi x : R) : R := Rmax lo (Rmin x hi).

Definition ranged : Conversion := fun _ a v =>
  match v with
  | PFloat x =>
      if String.eqb a "spot_size" then Ok (PFloat (clamp (PI / 180) PI x))
      else if String.eqb a "influence" then Ok (PFloat (clamp 0 1 x))
      else Ok v
  | _ => Ok v
  end.

(** A host whose [setParent] does nothing. *)
Definition setParent_noop (e : Engine) (o v : PyVal) : Res Engine := Ok e.

(** A scene in which [hit] is what every ray cast reports.  Every
    object has the material slots [slots] and no game property; gravity
    points down. *)
Definition scene_with (hit : Raycasting.Hit) (slots : list (option string))
  : Raycasting.Scene :=
  Raycasting.mkScene
    (fun _ => Raycasting.Vector.zero)
    (fun _ _ _ _ _ _ _ => hit)
    (fun _ => slots)
    (fun _ => [])
    (Raycasting.Vector.mk 0 0 (-9.8))
    0%nat
    (0.5%R, 0.5%R)
    (fun _ _ _ => Raycasting.Vector.mk 0 0 1).

Definition empty_scene : Raycasting.Scene := scene_with None [].

(** An empty scene without gravity. *)
Definition weightless_scene : Raycasting.Scene :=
  Raycasting.mkScene
    (fun _ => Raycasting.Vector.zero)
    (fun _ _ _ _ _ _ _ => None)
    (fun _ => [])
    (fun _ => [])
    Raycasting.Vector.zero
    0%nat
    (0.5%R, 0.5%R)
    (fun _ _ _ => Raycasting.Vector.mk 0 0 1).

Definition wall : Raycasting.Hit :=
  Some (1%nat, Raycasting.Vector.mk 1 0 0, Raycasting.Vector.mk (-1) 0 0).

(** A wooden wall, and a wall with one empty material slot. *)
Definition wall_scene : Raycasting.Scene :=
  scene_with wall [Some "Wood"%string].

Definition bare_wall_scene : Raycasting.Scene :=
  scene_with wall [None].

(** The wooden wall again, carrying the game property "enemy". *)
Definition enemy_wall_scene : Raycasting.Scene :=
  Raycasting.mkScene
    (fun _ => Raycasting.Vector.zero)
    (fun _ _ _ _ _ _ _ => wall)
    (fun _ => [Some "Wood"%string])
    (fun _ => ["enemy"%string])
    (Raycasting.Vector.mk 0 0 (-9.8))
    0%nat
    (0.5%R, 0.5%R)
    (fun _ _ _ => Raycasting.Vector.mk 0 0 1).

(** A caster at (5, 0, 0) and a box (object 1) between the points
    (5, 0, 0) and (6, 0, -4.9).  Looking from the first point towards
    the second, the ray enters the box at x = 5.25; looking back from
    the second, it enters at x = 5.75.  No other ray meets anything. *)
Definition box_from : Raycasting.Vector.t := Raycasting.Vector.mk 5 0 0.
Definition box_to : Raycasting.Vector.t := Raycasting.Vector.mk 6 0 (-4.9).
Definition box_near : Raycasting.Hit :=
  Some (1%nat, Raycasting.Vector.mk 5.25 0 (-1.225),
        Raycasting.Vector.mk (-1) 0 0).
Definition box_far : Raycasting.Hit :=
  Some (1%nat, Raycasting.Vector.mk 5.75 0 (-3.675),
        Raycasting.Vector.mk 1 0 0).

Definition box_scene : Raycasting.Scene :=
  Raycasting.mkScene
    (fun _ => box_from)
    (fun _ objto objfrom _ _ _ _ =>
       if decide (objfrom = box_from /\ objto = box_to) then box_near
       else if decide (objfrom = box_to /\ objto = box_from) then box_far
       else None)
    (fun _ => [Some "Wood"%string])
    (fun _ => [])
    (Raycasting.Vector.mk 0 0 (-9.8))
    0%nat
    (0.5%R, 0.5%R)
    (fun _ _ _ => Raycasting.Vector.mk 0 0 1).

(** The wall again, asked for with [poly=2]: polygon 9, hit in the
    middle of its UV square. *)
Definition wall_poly (caster : nat) (objto objfrom : Raycasting.Vector.t)
  (dist : R) (prop : string) (xray : bool) (mask : Z)
  : option (nat * Raycasting.Vector.t * Raycasting.Vector.t
            * Raycasting.FaceInfo) :=
  Some (1%nat, Raycasting.Vector.mk 1 0 0, Raycasting.Vector.mk (-1) 0 0,
        (Some 9%nat, Some (0.5%R, 0.5%R))).

(** An object with one controller, "Gate", fed by a positive and a
    negative sensor. *)
Definition gate_controller : Objects.Controller.t :=
  Objects.Controller.mk "Gate"
    [Objects.Sensor.mk true; Objects.Sensor.mk false] ["Motion"%string].

Definition gate_owner (type : string) : Objects.Owner :=
  Objects.mkOwner {["Gate"%string := gate_controller]}
    {["Gate"%string := type]}.

(** A curve: game object 5, its [bpy] object 6, its curve data 7. *)
Definition curve_engine : Engine :=
  mkEngine
    (<[(5%nat, "name"%string) := PStr "Path"]>
      (<[(5%nat, "blenderObject"%string) := PRef 6]>
      (<[(6%nat, "data"%string) := PRef 7]>
      (<[(7%nat, "bevel_depth"%string) := PFloat 0]> ∅))))
    (fun _ _ => None) [].

(** Two lights, game objects 0 and 10 with [bpy] objects 1 and 11,
    that share the data block 2; and the host after a copy of the
    block was made as block 3. *)
Definition twin_lights : Engine :=
  mkEngine
    (<[(0%nat, "blenderObject"%string) := PRef 1]>
      (<[(1%nat, "data"%string) := PRef 2]>
      (<[(10%nat, "blenderObject"%string) := PRef 11]>
      (<[(11%nat, "data"%string) := PRef 2]>
      (<[(2%nat, "energy"%string) := PFloat 10]> ∅)))))
    (fun _ _ => None) [].

Definition twin_lights_copied : Engine :=
  set_attrs twin_lights
    (<[(3%nat, "energy"%string) := PFloat 10]> (attrs twin_lights)).

Definition copy_as_3 (e : Engine) (d : PyVal) : Res (PyVal * Engine) :=
  Ok (PRef 3, twin_lights_copied).

End Examples.

(** * Properties *)

(** ** The host store *)

Lemma setattr_Ok e o a v e' :
  setattr e o a v = Ok e' ->
  exists r, o = PRef r /\ is_Some (attrs e !! (r, a))
            /\ e' = set_attrs e (<[(r, a) := v]> (attrs e)).
Proof.
  unfold setattr. destruct o; try discriminate.
  destruct (attrs e !! (r, a)) eqn:E; try discriminate.
  intros [= <-]. exists r. eauto.
Qed.

Lemma getattr_set_attrs_eq e r a v :
  getattr (set_attrs e (<[(r, a) := v]> (attrs e))) (PRef r) a = Ok v.
Proof. unfold getattr; simpl. by rewrite lookup_insert_eq. Qed.

Lemma getattr_set_attrs_ne e r a v o b :
  (o, b) <> (PRef r, a) ->
  getattr (set_attrs e (<[(r, a) := v]> (attrs e))) o b = getattr e o b.
Proof.
  intros Hne. unfold getattr; simpl. destruct o; try reflexivity.
  rewrite lookup_insert_ne; [reflexivity|]. intros [= -> ->]. by apply Hne.
Qed.

Lemma setattr_writes_only e o a v e' :
  setattr e o a v = Ok e' ->
  exists r, o = PRef r /\ writes_only (r, a) v e e'.
Proof.
  intros (r & -> & _ & ->)%setattr_Ok. exists r. split; [done|].
  unfold writes_only; simpl. rewrite lookup_insert_eq.
  repeat split; try done. intros k Hk. by rewrite lookup_insert_ne.
Qed.

Lemma set_attrs_writes_only e r a v :
  writes_only (r, a) v e (set_attrs e (<[(r, a) := v]> (attrs e))).
Proof.
  unfold writes_only; simpl. rewrite lookup_insert_eq.
  repeat split; try done; intros k Hk; by rewrite lookup_insert_ne.
Qed.

Lemma assign_as_given e o a v : assign as_given e o a v = setattr e o a v.
Proof.
  unfold assign, setattr, as_given. by destruct o.
Qed.

Lemma assign_Ok conv e o a v e' :
  assign conv e o a v = Ok e' ->
  exists r stored,
    o = PRef r /\ is_Some (attrs e !! (r, a)) /\ conv r a v = Ok stored
    /\ e' = set_attrs e (<[(r, a) := stored]> (attrs e)).
Proof.
  unfold assign. destruct o; try discriminate.
  destruct (attrs e !! (r, a)) eqn:E; try discriminate.
  destruct (conv r a v) as [stored|] eqn:Hconv; simpl; try discriminate.
  intros [= <-]. exists r, stored. eauto.
Qed.

Lemma Res_bind_Ok {A B} (m : Res A) (f : A -> Res B) b :
  m ≫= f = Ok b -> exists a, m = Ok a /\ f a = Ok b.
Proof. destruct m; simpl; [eauto | discriminate]. Qed.

(** ** The action nodes *)

Section node_properties.
Import Nodes.
Context `{RT : Runtime}.

(** C1, as amended.  Every evaluator leaves [done] at [False], the host
    untouched and raises nothing when one of its own checks stops it:
    the condition is not met; for the two writing nodes, an input is
    waiting or the armature (the camera) is invalid.  [ULPrintValue]
    checks its condition only.  Past the checks the evaluator performs
    its one action; [done] is [True] exactly when the action went
    through, and when the host raises, [done] stays [False] and the
    host is untouched. *)
Theorem evaluate_checks_then_acts
  (b : ULSetBoneConstraintInfluence.t) (c : ULSetCameraOrthoScale.t)
  (p : ULPrintValue.t) (e : Engine) :
  (let o := ULSetBoneConstraintInfluence.evaluate b e in
   if ULSetBoneConstraintInfluence.gated b e
   then ULSetBoneConstraintInfluence.done (node o) = PBool false
        /\ engine o = e /\ raised o = None
   else
     match k ← ULSetBoneConstraintInfluence.the_constraint e
                 (get_input e (ULSetBoneConstraintInfluence.armature b))
                 (get_input e (ULSetBoneConstraintInfluence.bone b))
                 (get_input e (ULSetBoneConstraintInfluence.constraint b));
           setattr e k "influence"
             (get_input e (ULSetBoneConstraintInfluence.influence b)) with
     | Ok e' => ULSetBoneConstraintInfluence.done (node o) = PBool true
                /\ engine o = e' /\ raised o = None
     | Raise x => ULSetBoneConstraintInfluence.done (node o) = PBool false
                  /\ engine o = e /\ raised o = Some x
     end)
  /\
  (let o := ULSetCameraOrthoScale.evaluate c e in
   if ULSetCameraOrthoScale.gated c e
   then ULSetCameraOrthoScale.done (node o) = PBool false
        /\ engine o = e /\ raised o = None
   else
     match setattr e (get_input e (ULSetCameraOrthoScale.camera c)) "ortho_scale"
             (get_input e (ULSetCameraOrthoScale.scale c)) with
     | Ok e' => ULSetCameraOrthoScale.done (node o) = PBool true
                /\ engine o = e' /\ raised o = None
     | Raise x => ULSetCameraOrthoScale.done (node o) = PBool false
                  /\ engine o = e /\ raised o = Some x
     end)
  /\
  (let o := ULPrintValue.evaluate p e in
   if ULPrintValue.gated p e
   then ULPrintValue.done (node o) = PBool false
        /\ engine o = e /\ raised o = None
   else ULPrintValue.done (node o) = PBool true
        /\ engine o = log (get_input e (ULPrintValue.value p))
                          (ULPrintValue.msg_type p) e
        /\ raised o = None).
Proof.
  repeat split.
  - unfold ULSetBoneConstraintInfluence.gated,
      ULSetBoneConstraintInfluence.evaluate,
      ULSetBoneConstraintInfluence.evaluate_with; simpl.
    destruct (not_met _); simpl; [done|].
    destruct (is_waiting _); simpl; [done|].
    destruct (is_invalid _ _); simpl; [done|].
    destruct (_ ≫= _); done.
  - unfold ULSetCameraOrthoScale.gated, ULSetCameraOrthoScale.evaluate,
      ULSetCameraOrthoScale.evaluate_with; simpl.
    destruct (not_met _); simpl; [done|].
    destruct (is_waiting _); simpl; [done|].
    destruct (is_invalid _ _); simpl; [done|].
    destruct (setattr _ _ _ _); done.
  - unfold ULPrintValue.gated, ULPrintValue.evaluate; simpl.
    destruct (not_met _); done.
Qed.

(** On a host that stores values as given, [evaluate_with] is
    [evaluate]. *)
Lemma camera_evaluate_as_given (c : ULSetCameraOrthoScale.t) (e : Engine) :
  ULSetCameraOrthoScale.evaluate_with (assign as_given) c e
  = ULSetCameraOrthoScale.evaluate c e.
Proof.
  unfold ULSetCameraOrthoScale.evaluate, ULSetCameraOrthoScale.evaluate_with.
  by rewrite assign_as_given.
Qed.

Lemma bone_evaluate_as_given (b : ULSetBoneConstraintInfluence.t) (e : Engine) :
  ULSetBoneConstraintInfluence.evaluate_with (assign as_given) b e
  = ULSetBoneConstraintInfluence.evaluate b e.
Proof.
  unfold ULSetBoneConstraintInfluence.evaluate,
    ULSetBoneConstraintInfluence.evaluate_with.
  destruct (ULSetBoneConstraintInfluence.the_constraint _ _ _ _); simpl;
    by rewrite ?assign_as_given.
Qed.

(** C5, as amended.  An evaluator that gets past its checks makes one
    assignment to the host: [camera.ortho_scale = scale], respectively
    [armature.blenderObject.pose.bones[bone].constraints[constraint].influence
    = influence].  When the host has the attribute and takes the
    value, that attribute is the one thing that changes: it holds the
    value as the host stores it, and every other attribute cell, the
    host collections and the console are as before.  In every other
    case (a check stops the call, the bone or the constraint is not
    found, the object has no such attribute, the host refuses the
    value) nothing is written, and but for a stopping check the
    exception escapes. *)
Theorem evaluate_writes_one_property (conv : Conversion)
  (c : ULSetCameraOrthoScale.t) (b : ULSetBoneConstraintInfluence.t)
  (e : Engine) :
  (let o := ULSetCameraOrthoScale.evaluate_with (assign conv) c e in
   let camera := get_input e (ULSetCameraOrthoScale.camera c) in
   let scale := get_input e (ULSetCameraOrthoScale.scale c) in
   if ULSetCameraOrthoScale.gated c e then engine o = e /\ raised o = None
   else
     match camera with
     | PRef r =>
         match attrs e !! (r, "ortho_scale"%string),
               conv r "ortho_scale"%string scale with
         | Some _, Ok stored =>
             writes_only (r, "ortho_scale"%string) stored e (engine o)
             /\ raised o = None
         | Some _, Raise x => engine o = e /\ raised o = Some x
         | None, _ => engine o = e /\ raised o = Some AttributeError
         end
     | _ => engine o = e /\ raised o = Some AttributeError
     end)
  /\
  (let o := ULSetBoneConstraintInfluence.evaluate_with (assign conv) b e in
   let influence := get_input e (ULSetBoneConstraintInfluence.influence b) in
   if ULSetBoneConstraintInfluence.gated b e
   then engine o = e /\ raised o = None
   else
     match ULSetBoneConstraintInfluence.the_constraint e
             (get_input e (ULSetBoneConstraintInfluence.armature b))
             (get_input e (ULSetBoneConstraintInfluence.bone b))
             (get_input e (ULSetBoneConstraintInfluence.constraint b)) with
     | Ok (PRef r) =>
         match attrs e !! (r, "influence"%string),
               conv r "influence"%string influence with
         | Some _, Ok stored =>
             writes_only (r, "influence"%string) stored e (engine o)
             /\ raised o = None
         | Some _, Raise x => engine o = e /\ raised o = Some x
         | None, _ => engine o = e /\ raised o = Some AttributeError
         end
     | Ok _ => engine o = e /\ raised o = Some AttributeError
     | Raise x => engine o = e /\ raised o = Some x
     end).
Proof.
  split.
  - unfold ULSetCameraOrthoScale.gated, ULSetCameraOrthoScale.evaluate_with;
      simpl.
    destruct (not_met _); simpl; [done|].
    destruct (is_waiting _); simpl; [done|].
    destruct (is_invalid _ _); simpl; [done|].
    unfold assign.
    destruct (get_input e (ULSetCameraOrthoScale.camera c)); try done.
    destruct (attrs e !! _); [|done].
    destruct (conv _ _ _); simpl; [|done].
    split; [apply set_attrs_writes_only | done].
  - unfold ULSetBoneConstraintInfluence.gated,
      ULSetBoneConstraintInfluence.evaluate_with; simpl.
    destruct (not_met _); simpl; [done|].
    destruct (is_waiting _); simpl; [done|].
    destruct (is_invalid _ _); simpl; [done|].
    destruct (ULSetBoneConstraintInfluence.the_constraint _ _ _ _) as [k|x];
      simpl; [|done].
    unfold assign. destruct k; try done.
    destruct (attrs e !! _); [|done].
    destruct (conv _ _ _); simpl; [|done].
    split; [apply set_attrs_writes_only | done].
Qed.

End node_properties.

(** C1 as stated fails for [ULPrintValue]: with the condition met and
    the value input still waiting, the node logs and sets [done] to
    [True]. *)
Lemma printvalue_ignores_waiting_value :
  let n := Nodes.ULPrintValue.mk (RT := Nodes.spec_runtime)
             false (PBool true) PWaiting PNone "INFO" in
  let e := mkEngine ∅ (fun _ _ => None) [] in
  let o := Nodes.ULPrintValue.evaluate n e in
  Nodes.is_waiting (Runtime := Nodes.spec_runtime)
    [Nodes.get_input (Runtime := Nodes.spec_runtime) e
       (Nodes.ULPrintValue.value n)] = true
  /\ Nodes.ULPrintValue.done (Nodes.node o) = PBool true
  /\ console (Nodes.engine o) = [Logged PWaiting "INFO"]
  /\ Nodes.engine o <> e.
Proof. simpl. repeat split. intros H. discriminate (f_equal console H). Qed.

(** C5 as stated fails when the armature has no bone of that name:
    the evaluator passes every check and reaches its action, the
    lookup [bones[bone]] raises [KeyError], and no property is
    written. *)
Lemma evaluate_missing_bone_writes_nothing :
  let e := mkEngine
             (<[(1%nat, "blenderObject"%string) := PRef 2]>
               (<[(2%nat, "pose"%string) := PRef 3]>
               (<[(3%nat, "bones"%string) := PRef 4]> ∅)))
             (fun _ _ => None) [] in
  let n := Nodes.ULSetBoneConstraintInfluence.mk (RT := Nodes.spec_runtime)
             false (PBool true) (PRef 1) (PStr "Arm") (PStr "IK") (PFloat 1)
             PNone in
  let o := Nodes.ULSetBoneConstraintInfluence.evaluate n e in
  Nodes.ULSetBoneConstraintInfluence.gated n e = false
  /\ Nodes.engine o = e
  /\ Nodes.raised o = Some KeyError
  /\ Nodes.ULSetBoneConstraintInfluence.done (Nodes.node o) = PBool false.
Proof. vm_compute. done. Qed.

(** ** The light wrapper *)

Section light_properties.
Import Lights.
Variable setParent : Engine -> PyVal -> PyVal -> Res Engine.

Lemma getattr_after_write e r a v o b :
  b <> a ->
  getattr (set_attrs e (<[(r, a) := v]> (attrs e))) o b = getattr e o b.
Proof. intros Hne. apply getattr_set_attrs_ne. intros [= _ ?]. done. Qed.

Lemma data_after_write L e r a v :
  a <> "blenderObject"%string -> a <> "data"%string ->
  data L (set_attrs e (<[(r, a) := v]> (attrs e))) = data L e.
Proof.
  intros H1 H2. unfold data.
  rewrite getattr_after_write by done.
  destruct (getattr e (game_object L) "blenderObject"); simpl; [|done].
  by rewrite getattr_after_write.
Qed.

Ltac read_after_write :=
  simpl;
  rewrite ?data_after_write by done;
  try match goal with
      | |- context [data ?L ?e] => destruct (data L e); simpl; [|done]
      end;
  rewrite ?getattr_after_write by done;
  done.

(** On a host that stores values as given, [set_with] is [set]. *)
Lemma set_as_given (p : Property) (v : PyVal) (L : ULLight) (e : Engine) :
  set_with setParent (assign as_given) p v L e = set setParent p v L e.
Proof.
  unfold set. destruct p; simpl; try done;
    try (destruct (data L e); simpl);
    by rewrite ?assign_as_given.
Qed.

Lemma assign_again conv e r a v stored :
  is_Some (attrs e !! (r, a)) -> conv r a v = Ok stored ->
  assign conv e (PRef r) a v
  = Ok (set_attrs e (<[(r, a) := stored]> (attrs e))).
Proof. intros [old Hold] Hconv. unfold assign. by rewrite Hold, Hconv. Qed.

(** C6, as amended.  Every property but [blenderObject] (declared
    without a setter) and [parent] (whose setter calls the host's
    [setParent]) forwards its getter and its setter to one host
    attribute, of the data block or of the game object, and no two
    properties share one: the getter reads that attribute, a write
    [L.p = v] that goes through is the one host assignment to it, and
    reading [L.p] afterwards returns what the host stored for [v].
    After a write to a property of the data block every other
    property of [L] reads as before. *)
Theorem light_write_then_read (conv : Conversion) (L : ULLight)
  (p : Property) (v : PyVal) (e e' : Engine) :
  forwards_setter p = true ->
  set_with setParent (assign conv) p v L e = Ok e' ->
  exists (target : Ref) (name : string) (stored : PyVal),
    match data_field p with
    | Some a => a = name /\ data L e = Ok (PRef target)
    | None => object_field p = Some name /\ game_object L = PRef target
    end
    /\ (forall q, forwards_setter q = true ->
                  data_field q = data_field p ->
                  object_field q = object_field p -> q = p)
    /\ get p L e = getattr e (PRef target) name
    /\ assign conv e (PRef target) name v = Ok e'
    /\ conv target name v = Ok stored
    /\ get p L e' = Ok stored
    /\ (data_field p <> None ->
        forall q, q <> p -> get q L e' = get q L e).
Proof.
  intros Hfwd Hset.
  destruct p; try discriminate Hfwd; simpl in Hset;
    try (apply Res_bind_Ok in Hset as (d & Hd & Hset));
    apply assign_Ok in Hset as (r & stored & Hr & Hsome & Hconv & ->); subst;
    exists r; eexists; exists stored;
    (split; [simpl; split; [reflexivity|done] |]);
    (split; [intros q _ Hq1 Hq2; destruct q; simpl in Hq1, Hq2; congruence |]);
    (split; [simpl; rewrite ?Hd, ?Hr; done |]);
    (split; [by apply assign_again |]);
    (split; [done |]);
    (split;
     [ simpl; rewrite ?data_after_write by done;
       rewrite ?Hd, ?Hr; simpl; apply getattr_set_attrs_eq
     | simpl; intros Hdata; try done;
       intros q Hq; destruct q; try done; read_after_write ]).
Qed.

End light_properties.

(** C6 as stated fails for [blenderObject]: the property has no setter,
    so the assignment raises and the property still reads the wrapped
    object. *)
Lemma light_blenderObject_is_read_only :
  Lights.set Examples.setParent_noop Lights.blenderObject (PFloat 5)
    Examples.the_light Examples.light_engine = Raise AttributeError
  /\ Lights.get Lights.blenderObject Examples.the_light Examples.light_engine
     = Ok (PRef 1)
  /\ PRef 1 <> PFloat 5.
Proof.
  split; [reflexivity|]. split; [vm_compute; reflexivity | discriminate].
Qed.

(** On a host that keeps [spot_size] between one degree and pi, the
    value 10 is stored as pi. *)
Lemma ranged_spot_size (r : Ref) :
  Examples.ranged r "spot_size" (PFloat 10) = Ok (PFloat PI).
Proof.
  unfold Examples.ranged, Examples.clamp. simpl.
  pose proof PI_4. pose proof PI_RGT_0.
  rewrite Rmin_right by lra. rewrite Rmax_right by lra. reflexivity.
Qed.

Lemma light_spot_size_set :
  Lights.set_with Examples.setParent_noop (assign Examples.ranged)
    Lights.spot_size (PFloat 10) Examples.the_light Examples.light_engine
  = Ok (set_attrs Examples.light_engine
          (<[(2%nat, "spot_size"%string) := PFloat PI]>
             (attrs Examples.light_engine))).
Proof.
  assert (Lights.data Examples.the_light Examples.light_engine = Ok (PRef 2))
    as Hdata by (vm_compute; reflexivity).
  unfold Lights.set_with. rewrite Hdata.
  change (assign Examples.ranged Examples.light_engine (PRef 2) "spot_size"
            (PFloat 10)
          = Ok (set_attrs Examples.light_engine
                  (<[(2%nat, "spot_size"%string) := PFloat PI]>
                     (attrs Examples.light_engine)))).
  apply assign_again; [|apply ranged_spot_size].
  exists (PFloat 1). vm_compute. reflexivity.
Qed.

Lemma light_write_then_read_witness :
  let e := Examples.light_engine in
  let e' := set_attrs e (<[(2%nat, "spot_size"%string) := PFloat PI]> (attrs e)) in
  let L := Examples.the_light in
  Lights.set_with Examples.setParent_noop (assign Examples.ranged)
    Lights.spot_size (PFloat 10) L e = Ok e'
  /\ exists (target : Ref) (name : string) (stored : PyVal),
       ("spot_size"%string = name /\ Lights.data L e = Ok (PRef target))
       /\ (forall q, Lights.forwards_setter q = true ->
                     Lights.data_field q = Lights.data_field Lights.spot_size ->
                     Lights.object_field q
                     = Lights.object_field Lights.spot_size ->
                     q = Lights.spot_size)
       /\ Lights.get Lights.spot_size L e = getattr e (PRef target) name
       /\ assign Examples.ranged e (PRef target) name (PFloat 10) = Ok e'
       /\ Examples.ranged target name (PFloat 10) = Ok stored
       /\ Lights.get Lights.spot_size L e' = Ok stored
       /\ (Lights.data_field Lights.spot_size <> None ->
           forall q, q <> Lights.spot_size ->
                     Lights.get q L e' = Lights.get q L e).
Proof.
  split; [apply light_spot_size_set|].
  apply (light_write_then_read Examples.setParent_noop Examples.ranged
           Examples.the_light Lights.spot_size (PFloat 10)
           Examples.light_engine
           (set_attrs Examples.light_engine
              (<[(2%nat, "spot_size"%string) := PFloat PI]>
                 (attrs Examples.light_engine))));
    [reflexivity | apply light_spot_size_set].
Defined.

(** What is read back is pi, not the 10 that was written. *)
Example light_spot_size_is_clamped :
  let e := Examples.light_engine in
  let e' := set_attrs e (<[(2%nat, "spot_size"%string) := PFloat PI]> (attrs e)) in
  Lights.set_with Examples.setParent_noop (assign Examples.ranged)
    Lights.spot_size (PFloat 10) Examples.the_light e = Ok e'
  /\ Lights.get Lights.spot_size Examples.the_light e' = Ok (PFloat PI)
  /\ PI <> 10%R.
Proof.
  split; [apply light_spot_size_set|].
  split; [vm_compute; reflexivity|].
  pose proof PI_4. lra.
Qed.

(** ** Logic bricks *)

Section brick_properties.
Import Objects.

(** C8.  [controller_brick(owner, name).positive] and
    [controller_brick_status(owner, name)] are the same result, value
    or exception.  A missing controller raises [KeyError] in both; a
    controller without sensors gives [False]; with sensors, the six
    supported types give a boolean and every other type raises
    [LogicControllerNotSupportedError]. *)
Theorem controller_brick_positive_is_status (owner : Owner) (name : string) :
  ControllerBrick.positive <$> controller_brick owner name
  = controller_brick_status owner name
  /\ match controllers owner !! name, game_controllers owner !! name with
     | Some cont, Some state =>
         match Controller.sensors cont with
         | [] => controller_brick_status owner name = Ok false
         | _ :: _ =>
             if supported state
             then exists b, controller_brick_status owner name = Ok b
             else controller_brick_status owner name
                  = Raise LogicControllerNotSupportedError
         end
     | _, _ => controller_brick_status owner name = Raise KeyError
     end.
Proof.
  unfold controller_brick, controller_brick_status, subscript, supported.
  destruct (controllers owner !! name) as [cont|]; simpl; [|done].
  destruct (game_controllers owner !! name) as [state|]; simpl; [|done].
  destruct (Controller.sensors cont) as [|first rest]; simpl; [done|].
  repeat (destruct (String.eqb state _); simpl; [eauto|]).
  done.
Qed.

(** C10.  Assigning to [name] of a curve wrapper prints the notice and
    nothing else: the host's attributes and collections are as before,
    and [name] reads as before. *)
Theorem curve_name_setter_keeps_state (c : ULCurve.t) (v : PyVal) (e : Engine) :
  let e' := ULCurve.set_name c v e in
  ULCurve.name c e' = ULCurve.name c e
  /\ ULCurve.bevel_depth c e' = ULCurve.bevel_depth c e
  /\ attrs e' = attrs e
  /\ items e' = items e
  /\ console e' = console e ++ [Text "ULCurve.name is read-only!"].
Proof. done. Qed.

End brick_properties.

(** ** Ray-cast helpers *)

Section raycast_properties.
Import Raycasting.
Local Open Scope R_scope.

(** *** Vectors *)

Lemma Vector_eq (a b : Vector.t) :
  Vector.x a = Vector.x b -> Vector.y a = Vector.y b ->
  Vector.z a = Vector.z b -> a = b.
Proof. destruct a, b; simpl; intros -> -> ->; reflexivity. Qed.

Lemma sum_squares_nonneg (a b c : R) : 0 <= a * a + b * b + c * c.
Proof. nra. Qed.

Lemma length_nonneg (v : Vector.t) : 0 <= Vector.length v.
Proof. apply sqrt_pos. Qed.

Lemma length_zero (v : Vector.t) : Vector.length v = 0 -> v = Vector.zero.
Proof.
  unfold Vector.length. intros H.
  apply sqrt_eq_0 in H; [|apply sum_squares_nonneg].
  apply Vector_eq; simpl; nra.
Qed.

Lemma sub_zero (a b : Vector.t) : (a - b)%V = Vector.zero -> a = b.
Proof.
  intros H. apply Vector_eq.
  - apply (f_equal Vector.x) in H; simpl in H; lra.
  - apply (f_equal Vector.y) in H; simpl in H; lra.
  - apply (f_equal Vector.z) in H; simpl in H; lra.
Qed.

Lemma length_scale (v : Vector.t) (k : R) :
  Vector.length (Vector.scale v k) = Rabs k * Vector.length v.
Proof.
  unfold Vector.length; simpl.
  replace (Vector.x v * k * (Vector.x v * k) + Vector.y v * k * (Vector.y v * k)
           + Vector.z v * k * (Vector.z v * k))
    with (Rsqr k * (Vector.x v * Vector.x v + Vector.y v * Vector.y v
                    + Vector.z v * Vector.z v))
    by (unfold Rsqr; ring).
  rewrite sqrt_mult; [|apply Rle_0_sqr|apply sum_squares_nonneg].
  by rewrite sqrt_Rsqr_abs.
Qed.

Lemma cutoff_pos : 0 < Vector.normalize_cutoff.
Proof. unfold Vector.normalize_cutoff. lra. Qed.

Lemma length_squared_zero : Vector.length_squared Vector.zero = 0.
Proof. unfold Vector.length_squared; simpl. lra. Qed.

Lemma length_pos (v : Vector.t) :
  0 < Vector.length_squared v -> 0 < Vector.length v.
Proof. intros H. by apply sqrt_lt_R0. Qed.

Lemma length_sqr (v : Vector.t) :
  Vector.length v * Vector.length v = Vector.length_squared v.
Proof. apply sqrt_sqrt, sum_squares_nonneg. Qed.

(** [normalize()] above its cut-off: a unit vector along [v]. *)
Lemma normalized_unit (v : Vector.t) :
  Vector.normalize_cutoff < Vector.length_squared v ->
  Vector.length (Vector.normalized v) = 1.
Proof.
  intros Hv. unfold Vector.normalized.
  destruct (Rlt_dec _ _) as [_|]; [|done].
  pose proof cutoff_pos. pose proof (length_pos v ltac:(lra)).
  rewrite length_scale, Rabs_right; [apply Rinv_l; lra|].
  apply Rle_ge, Rlt_le, Rinv_0_lt_compat. lra.
Qed.

Lemma normalized_direction (v : Vector.t) :
  Vector.normalize_cutoff < Vector.length_squared v ->
  Vector.scale (Vector.normalized v) (Vector.length v) = v.
Proof.
  intros Hv. unfold Vector.normalized.
  destruct (Rlt_dec _ _) as [_|]; [|done].
  pose proof cutoff_pos. pose proof (length_pos v ltac:(lra)).
  apply Vector_eq; simpl; field; lra.
Qed.

(** [normalize()] at or below its cut-off: the zero vector. *)
Lemma normalized_below (v : Vector.t) :
  Vector.length_squared v <= Vector.normalize_cutoff ->
  Vector.normalized v = Vector.zero.
Proof.
  intros Hv. unfold Vector.normalized. destruct (Rlt_dec _ _); [lra|done].
Qed.

(** *** [ray_data] *)


(** C7.  [raycast_mouse] is [raycast] from the active camera, at the
    camera's position, towards the point ten screen vectors behind it,
    with [local] and [visualize] at their defaults. *)
Theorem raycast_mouse_is_raycast (s : Scene) (fuel : nat) (distance : R)
  (prop material : string) (exclude xray : bool) (mask : Z) :
  let camera := active_camera s in
  let ray_target :=
    (worldPosition s camera
     - Vector.scale
         (getScreenVect s camera (mouse_position s).1 (mouse_position s).2) 10)%V in
  raycast_mouse s fuel distance prop material exclude xray mask
  = raycast s fuel camera (worldPosition s camera) ray_target distance prop
      material exclude xray false mask false.
Proof. reflexivity. Qed.

(** *** [raycast] *)

(** C9, as amended.  With [exclude] off: when a material is asked for,
    the first ray cast hits, [xray] is off, every material slot of the
    hit object is filled and none carries the material, and the
    distance left beyond the hit point is positive, [raycast] returns
    [(None, None, None, direction)]. *)
Theorem raycast_rejects_other_material (s : Scene) (fuel : nat) (caster : Ref)
  (origin dest : Vector.t) (distance : R) (prop material : string)
  (local : bool) (mask : Z) (visualize : bool)
  (direction dest' : Vector.t) (dist' : R)
  (obj : Ref) (point normal : Vector.t) (names : list string) :
  ray_data s (AtVector origin) (AtVector dest) local distance
  = (direction, dist', dest') ->
  nonempty material = true ->
  rayCast s caster dest' origin dist' prop false mask
  = Some (obj, point, normal) ->
  material_names (material_slots s obj) = Ok names ->
  str_in material names = false ->
  dist' - Vector.length (origin - point) > 0 ->
  exists drawn,
    raycast s (S fuel) caster origin dest distance prop material
      false false local mask visualize
    = Some (Ok (None, direction, drawn)).
Proof.
  intros Hrd Hmat Hhit Hnames Hin Hleft.
  unfold raycast. rewrite Hrd, Hhit, Hmat. simpl.
  unfold filtered_out. rewrite Hnames. simpl. rewrite Hin. simpl.
  rewrite bool_decide_eq_true_2 by done.
  eauto.
Qed.

(** *** [raycast_projectile] *)

Lemma calc_projectile_closed_form (s : Scene) (t : R) (v origin : Vector.t) :
  calc_projectile s t v origin = trajectory s origin v t.
Proof. apply Vector_eq; simpl; lra. Qed.

Lemma step_parameter_INR (r : R) (k : nat) : step_parameter r k = INR k * r.
Proof. induction k; [simpl; lra|]. rewrite S_INR. simpl. lra. Qed.

Lemma abs_z_le_length (v : Vector.t) : Rabs (Vector.z v) <= Vector.length v.
Proof.
  unfold Vector.length. rewrite <- sqrt_Rsqr_abs.
  apply sqrt_le_1_alt. unfold Rsqr. nra.
Qed.

Section projectile_loop_properties.
Variables (s : Scene) (caster : Ref) (origin v : Vector.t)
          (distance resolution : R) (prop : string) (xray : bool) (mask : Z).

Local Abbreviation loop := (projectile_loop s caster origin v distance resolution prop xray mask).
Local Abbreviation sample := (sample s origin v resolution).
Local Abbreviation previous := (previous s origin v resolution).
Local Abbreviation travelled := (travelled s origin v resolution).
Local Abbreviation advanced := (advanced s origin v resolution).
Local Abbreviation cast k := (rayCast s caster (previous k) (sample k) 0 prop xray mask).
Local Abbreviation sampled := (sampled s origin v resolution caster prop xray mask).
Local Abbreviation stopped := (stopped distance).

Lemma loop_0 (st : Loop) :
  loop 0%nat st
  = if Rlt_dec (total_dist st) distance then OutOfFuel st else Finished st.
Proof. reflexivity. Qed.

Lemma last_samples (k : nat) : List.last (map sample (seq 0 k)) origin = previous k.
Proof.
  destruct k as [|j]; [reflexivity|].
  rewrite seq_S, map_app. simpl. apply last_last.
Qed.

Lemma advanced_S (k : nat) :
  mkLoop (map sample (seq 0 k) ++ [sample k])
    (step_parameter resolution k + resolution)
    (travelled k + Vector.length (sample k - previous k)) (Some None)
  = advanced (S k).
Proof. unfold Raycasting.advanced. by rewrite seq_S, map_app. Qed.

Lemma loop_S (fuel k : nat) :
  loop (S fuel) (advanced k)
  = if Rlt_dec (travelled k) distance then
      match cast k with
      | None => loop fuel (advanced (S k))
      | Some (obj, point, normal) =>
          Finished (mkLoop (map sample (seq 0 k) ++ [point])
                      (step_parameter resolution k) (travelled (S k))
                      (Some (Some (obj, point, normal))))
      end
    else Finished (advanced k).
Proof.
  cbn [projectile_loop]. cbn [Raycasting.advanced total_dist points idx].
  destruct (Rlt_dec _ _); [|reflexivity].
  rewrite calc_projectile_closed_form, last_samples.
  fold (sample k).
  destruct (cast k) as [[[obj point] normal]|]; [reflexivity|].
  by rewrite advanced_S.
Qed.

Lemma loop_sampled (fuel : nat) :
  forall k, (forall i, (i < k)%nat -> cast i = None) ->
            sampled (loop fuel (advanced k)).
Proof.
  induction fuel as [|fuel IH]; intros k Hmiss.
  - rewrite loop_0. exists k. split; [done|].
    by destruct (Rlt_dec _ _), k.
  - rewrite loop_S. destruct (Rlt_dec _ _).
    + destruct (cast k) as [[[obj point] normal]|] eqn:Hcast.
      * exists k. by split.
      * apply IH. intros i Hi.
        destruct (decide (i = k)) as [->|]; [done|]. apply Hmiss. lia.
    + exists k. split; [done|]. by destruct k.
Qed.

Lemma loop_reaches (n : nat) :
  forall k, distance <= travelled (k + n) ->
            exists fuel st, loop fuel (advanced k) = Finished st /\ stopped st.
Proof.
  induction n as [|n IH]; intros k Hfar.
  - exists 0%nat, (advanced k). rewrite loop_0.
    replace (k + 0)%nat with k in Hfar by lia.
    destruct (Rlt_dec _ _) as [Hlt|_]; [simpl in Hlt; lra|].
    split; [done|]. by left.
  - destruct (Rlt_dec (travelled k) distance) as [Hlt|Hge].
    + destruct (cast k) as [[[obj point] normal]|] eqn:Hcast.
      * eexists 1%nat, _. rewrite loop_S, Hcast.
        destruct (Rlt_dec _ _); [|done].
        split; [done|]. right. by eexists.
      * destruct (IH (S k)) as (fuel & st & Hrun & Hst).
        { by replace (S k + n)%nat with (k + S n)%nat by lia. }
        exists (S fuel), st. rewrite loop_S, Hcast.
        by destruct (Rlt_dec _ _).
    + exists 0%nat, (advanced k). rewrite loop_0.
      destruct (Rlt_dec _ _) as [Hlt|_]; [simpl in Hlt; lra|].
      split; [done|]. left. simpl. lra.
Qed.

Lemma travelled_nonneg (k : nat) : 0 <= travelled k.
Proof.
  induction k; simpl; [lra|].
  pose proof (length_nonneg (sample k - previous k)). lra.
Qed.

Lemma travelled_grows (c : R) (k0 : nat) :
  (forall j, (k0 <= j)%nat -> c <= Vector.length (sample (S j) - sample j)) ->
  forall n, INR n * c <= travelled (S k0 + n).
Proof.
  intros Hlong. induction n as [|n IH].
  - pose proof (travelled_nonneg (S k0 + 0)). simpl INR. lra.
  - replace (S k0 + S n)%nat with (S (S (k0 + n))) by lia.
    rewrite S_INR.
    change (travelled (S (S (k0 + n))))
      with (travelled (S (k0 + n))
            + Vector.length (sample (S (k0 + n)) - sample (k0 + n))).
    specialize (Hlong (k0 + n)%nat ltac:(lia)).
    replace (S k0 + n)%nat with (S (k0 + n)) in IH by lia. lra.
Qed.

(** A loop whose segments are eventually longer than some positive
    [c] covers any distance. *)
Lemma loop_terminates_if_long (c : R) (k0 : nat) :
  0 < c ->
  (forall j, (k0 <= j)%nat -> c <= Vector.length (sample (S j) - sample j)) ->
  exists fuel st, loop fuel (advanced 0) = Finished st /\ stopped st.
Proof.
  intros Hc Hlong.
  destruct (INR_unbounded (distance / c)) as [n Hn].
  apply (loop_reaches (S k0 + n) 0%nat).
  pose proof (travelled_grows c k0 Hlong n) as Hgrow.
  simpl Nat.add at 1.
  assert (distance < INR n * c); [|simpl in *; lra].
  apply (Rmult_lt_compat_r c) in Hn; [|done].
  unfold Rdiv in Hn. rewrite Rmult_assoc, Rinv_l, Rmult_1_r in Hn; lra.
Qed.

(** Without gravity every segment is [v * resolution]. *)
Lemma segment_no_gravity (j : nat) :
  Vector.z (gravity s) = 0 ->
  (sample (S j) - sample j)%V = Vector.scale v resolution.
Proof.
  intros Hg. apply Vector_eq; simpl; rewrite ?Hg; lra.
Qed.

Lemma segment_z (j : nat) :
  Vector.z (sample (S j) - sample j)
  = resolution * Vector.z v
    + Vector.z (gravity s) * resolution * resolution * (INR j + / 2).
Proof. simpl. rewrite step_parameter_INR. lra. Qed.

Lemma eventually_long :
  resolution <> 0 ->
  v <> Vector.zero \/ Vector.z (gravity s) <> 0 ->
  exists c k0,
    0 < c
    /\ forall j, (k0 <= j)%nat -> c <= Vector.length (sample (S j) - sample j).
Proof.
  intros Hr Hmove.
  destruct (Req_dec_T (Vector.z (gravity s)) 0) as [Hg|Hg].
  - destruct Hmove as [Hv|]; [|done].
    exists (Rabs resolution * Vector.length v), 0%nat. split.
    + apply Rmult_lt_0_compat; [by apply Rabs_pos_lt|].
      destruct (length_nonneg v) as [|Hz]; [done|].
      symmetry in Hz. by apply length_zero in Hz.
    + intros j _. rewrite segment_no_gravity, length_scale by done. lra.
  - set (a := Rabs (Vector.z (gravity s) * resolution * resolution)).
    set (b := Rabs (resolution * Vector.z v)).
    assert (0 < a) as Ha.
    { apply Rabs_pos_lt. repeat apply Rmult_integral_contrapositive_currified; done. }
    destruct (INR_unbounded (b / a)) as [k0 Hk0].
    assert (b < a * INR k0) as Hb.
    { apply (Rmult_lt_compat_l a) in Hk0; [|done].
      unfold Rdiv in Hk0.
      replace (a * (b * / a)) with (b * (a * / a)) in Hk0 by lra.
      rewrite Rinv_r, Rmult_1_r in Hk0; lra. }
    exists (a / 2), k0. split; [lra|].
    intros j Hj.
    eapply Rle_trans; [|apply abs_z_le_length].
    rewrite segment_z.
    pose proof (Rabs_triang_inv
                  (Vector.z (gravity s) * resolution * resolution * (INR j + / 2))
                  (- (resolution * Vector.z v))) as Htri.
    rewrite Rabs_Ropp, Rabs_mult in Htri. fold a b in Htri.
    pose proof (pos_INR j) as Hj0.
    rewrite (Rabs_right (INR j + / 2)) in Htri by lra.
    apply le_INR in Hj.
    apply (Rmult_le_compat_l a) in Hj; [|lra].
    match type of Htri with
    | _ <= Rabs ?x =>
        replace x with (resolution * Vector.z v
                        + Vector.z (gravity s) * resolution * resolution
                          * (INR j + / 2)) in Htri by lra
    end.
    lra.
Qed.

Lemma loop_terminates :
  resolution <> 0 ->
  v <> Vector.zero \/ Vector.z (gravity s) <> 0 ->
  exists fuel st, loop fuel (advanced 0) = Finished st /\ stopped st.
Proof.
  intros Hr Hmove.
  destruct (eventually_long Hr Hmove) as (c & k0 & Hc & Hlong).
  by apply (loop_terminates_if_long c k0).
Qed.

(** When every sample is [origin], no distance is covered and a loop
    that meets nothing never ends.  That is so with [resolution] at
    zero, and for a projectile at rest without gravity. *)
Lemma travelled_stuck (k : nat) :
  (forall j, sample j = origin) -> travelled k = 0.
Proof.
  intros Hstill. induction k as [|k IH]; [reflexivity|].
  simpl. rewrite IH, Hstill.
  replace (previous k) with origin by (destruct k; simpl; by rewrite ?Hstill).
  unfold Vector.length; simpl.
  match goal with
  | |- 0 + sqrt ?x = 0 => replace x with 0 by lra
  end.
  rewrite sqrt_0. lra.
Qed.

Lemma loop_stuck :
  (forall j, sample j = origin) -> 0 < distance ->
  (forall k, cast k = None) ->
  forall fuel k, exists st, loop fuel (advanced k) = OutOfFuel st.
Proof.
  intros Hstill Hd Hmiss. induction fuel as [|fuel IH]; intros k.
  - rewrite loop_0. simpl. rewrite travelled_stuck by done.
    destruct (Rlt_dec 0 distance); [eauto|done].
  - rewrite loop_S, travelled_stuck, Hmiss by done.
    destruct (Rlt_dec 0 distance); [apply IH|done].
Qed.

Lemma still_without_resolution (j : nat) : resolution = 0 -> sample j = origin.
Proof.
  intros Hr. unfold Raycasting.sample.
  rewrite step_parameter_INR, Hr. apply Vector_eq; simpl; lra.
Qed.

Lemma still_at_rest (j : nat) :
  v = Vector.zero -> Vector.z (gravity s) = 0 -> sample j = origin.
Proof.
  intros -> Hg. unfold Raycasting.sample.
  apply Vector_eq; simpl; rewrite ?Hg; lra.
Qed.

End projectile_loop_properties.

Lemma projectile_velocity_nonzero (aim : Vector.t) (power : R) :
  Vector.normalize_cutoff < Vector.length_squared aim -> power <> 0 ->
  projectile_velocity aim power <> Vector.zero.
Proof.
  intros Haim Hpower Hzero.
  apply (f_equal Vector.length) in Hzero.
  unfold projectile_velocity in Hzero.
  rewrite length_scale, normalized_unit in Hzero by done.
  replace (Vector.length Vector.zero) with 0 in Hzero.
  - rewrite Rmult_1_r in Hzero. by apply Rabs_no_R0 in Hzero.
  - unfold Vector.length; simpl.
    replace (0 * 0 + 0 * 0 + 0 * 0) with 0 by lra. by rewrite sqrt_0.
Qed.

(** C2, as amended.  A run of the loop of [raycast_projectile] leaves
    behind the samples [o + t*v + (0, 0, g*t*t/2)] of the iterations
    whose ray cast reported nothing: [o] is the origin, moved by the
    caster's position when [local] is set, [t] starts at 0 and
    advances by [resolution], [v] is the normalised aim times [power]
    and [g] the z component of the scene's gravity.  If the run ended
    on a hit, the ray cast of the next iteration, between the previous
    sample and the new one, reported it; its hit point is the last
    point and the loop is over. *)
Theorem projectile_samples (s : Scene) (fuel : nat) (caster : Ref)
  (origin : Place) (aim : Vector.t) (power distance resolution : R)
  (prop : string) (xray local : bool) (mask : Z) :
  let v := projectile_velocity aim power in
  let o := projectile_origin s caster origin local in
  let sample k := trajectory s o v (step_parameter resolution k) in
  let previous k := match k with O => o | S j => sample j end in
  let r := projectile_run s fuel caster origin aim power distance resolution
             prop xray local mask in
  exists k,
    (forall i, (i < k)%nat ->
       rayCast s caster (previous i) (sample i) 0 prop xray mask = None)
    /\ match hit (state r) with
       | Some (Some (obj, point, normal)) =>
           rayCast s caster (previous k) (sample k) 0 prop xray mask
           = Some (obj, point, normal)
           /\ points (state r) = map sample (seq 0 k) ++ [point]
           /\ r = Finished (state r)
       | _ => points (state r) = map sample (seq 0 k)
       end.
Proof.
  intros v o sample previous r.
  apply (loop_sampled s caster o v distance resolution prop xray mask fuel 0).
  intros i Hi. lia.
Qed.


End raycast_properties.



Lemma wall_leftover :
  (5 - Raycasting.Vector.length
         (Raycasting.Vector.sub (Raycasting.Vector.mk 0 0 0)
            (Raycasting.Vector.mk 1 0 0)) > 0)%R.
Proof.
  unfold Raycasting.Vector.length; simpl.
  replace ((0 - 1) * (0 - 1) + (0 - 0) * (0 - 0) + (0 - 0) * (0 - 0))%R
    with 1%R by lra.
  rewrite sqrt_1. lra.
Qed.

Lemma wall_ray_data (local : bool) :
  (Raycasting.ray_data Examples.wall_scene
     (Raycasting.AtVector (Raycasting.Vector.mk 0 0 0))
     (Raycasting.AtVector (Raycasting.Vector.mk 10 0 0)) local 5).1.2 = 5%R.
Proof. simpl. destruct (Req_dec_T 5 0); [lra | reflexivity]. Qed.

(** C9 as stated fails when [exclude] is set: the selection is
    inverted, an object without the material is kept, and the hit is
    returned. *)
Lemma raycast_exclude_keeps_other_material :
  let s := Examples.wall_scene in
  let origin := Raycasting.Vector.mk 0 0 0 in
  let dest := Raycasting.Vector.mk 10 0 0 in
  let rd := Raycasting.ray_data s (Raycasting.AtVector origin)
              (Raycasting.AtVector dest) false 5 in
  let hit := (1%nat, Raycasting.Vector.mk 1 0 0, Raycasting.Vector.mk (-1) 0 0) in
  Raycasting.nonempty "Steel" = true
  /\ Raycasting.rayCast s 0%nat rd.2 origin rd.1.2 "" false 65535 = Some hit
  /\ Raycasting.material_names (Raycasting.material_slots s 1%nat) = Ok ["Wood"%string]
  /\ Raycasting.str_in "Steel" ["Wood"%string] = false
  /\ (rd.1.2 - Raycasting.Vector.length
                 (Raycasting.Vector.sub origin (Raycasting.Vector.mk 1 0 0)) > 0)%R
  /\ Raycasting.raycast s 1 0%nat origin dest 5 "" "Steel" true false false
       65535 false
     = Some (Ok (Some hit, rd.1.1, [])).
Proof.
  intros s origin dest rd hit.
  repeat split; try reflexivity.
  unfold rd, s, origin, dest. rewrite wall_ray_data. apply wall_leftover.
Qed.

(** An empty material slot has no material to name: the filter raises. *)
Lemma raycast_empty_slot_raises :
  Raycasting.raycast Examples.bare_wall_scene 1 0%nat
    (Raycasting.Vector.mk 0 0 0) (Raycasting.Vector.mk 10 0 0) 5
    "" "Steel" false false false 65535 false
  = Some (Raise AttributeError).
Proof. reflexivity. Qed.

Lemma raycast_rejects_other_material_witness :
  exists drawn,
    Raycasting.raycast Examples.wall_scene 1 0%nat
      (Raycasting.Vector.mk 0 0 0) (Raycasting.Vector.mk 10 0 0) 5
      "" "Steel" false false false 65535 false
    = Some (Ok (None,
                (Raycasting.ray_data Examples.wall_scene
                   (Raycasting.AtVector (Raycasting.Vector.mk 0 0 0))
                   (Raycasting.AtVector (Raycasting.Vector.mk 10 0 0))
                   false 5).1.1,
                drawn)).
Proof.
  apply (raycast_rejects_other_material Examples.wall_scene 0 0%nat
           (Raycasting.Vector.mk 0 0 0) (Raycasting.Vector.mk 10 0 0) 5
           "" "Steel" false 65535 false
           (Raycasting.ray_data Examples.wall_scene
              (Raycasting.AtVector (Raycasting.Vector.mk 0 0 0))
              (Raycasting.AtVector (Raycasting.Vector.mk 10 0 0)) false 5).1.1
           (Raycasting.ray_data Examples.wall_scene
              (Raycasting.AtVector (Raycasting.Vector.mk 0 0 0))
              (Raycasting.AtVector (Raycasting.Vector.mk 10 0 0)) false 5).2
           (Raycasting.ray_data Examples.wall_scene
              (Raycasting.AtVector (Raycasting.Vector.mk 0 0 0))
              (Raycasting.AtVector (Raycasting.Vector.mk 10 0 0)) false 5).1.2
           1%nat (Raycasting.Vector.mk 1 0 0) (Raycasting.Vector.mk (-1) 0 0)
           ["Wood"%string]);
    try reflexivity.
  rewrite wall_ray_data. apply wall_leftover.
Defined.


(** Nor does the loop end for a projectile at rest in a scene without
    gravity. *)
Lemma projectile_at_rest_never_ends :
  ~ exists fuel st,
      Raycasting.projectile_run Examples.weightless_scene fuel 0%nat
        (Raycasting.AtVector Raycasting.Vector.zero)
        (Raycasting.Vector.mk 1 0 0) 0 100 0.05 "" false false 65535
      = Raycasting.Finished st.
Proof.
  intros (fuel & st & Hrun).
  assert (Raycasting.projectile_velocity (Raycasting.Vector.mk 1 0 0) 0
          = Raycasting.Vector.zero) as Hv.
  { unfold Raycasting.projectile_velocity. apply Vector_eq; simpl; lra. }
  destruct (loop_stuck Examples.weightless_scene 0%nat
              (Raycasting.projectile_origin Examples.weightless_scene 0%nat
                 (Raycasting.AtVector Raycasting.Vector.zero) false)
              (Raycasting.projectile_velocity (Raycasting.Vector.mk 1 0 0) 0)
              100 0.05 "" false 65535
              (fun j => still_at_rest Examples.weightless_scene _ _ 0.05 j Hv
                           eq_refl)
              ltac:(lra) (fun _ => eq_refl) fuel 0%nat) as [st' Hstuck].
  change (Raycasting.advanced _ _ _ _ 0)
    with (Raycasting.mkLoop [] 0 0 None) in Hstuck.
  unfold Raycasting.projectile_run in Hrun. congruence.
Qed.

(** Nor does it end, without gravity, for an aim that is not zero but
    within the cut-off of [normalize()]: the velocity is zero. *)
Lemma projectile_short_aim_never_ends :
  ~ exists fuel st,
      Raycasting.projectile_run Examples.weightless_scene fuel 0%nat
        (Raycasting.AtVector Raycasting.Vector.zero)
        (Raycasting.Vector.mk (/ 2 ^ 60) 0 0) 1 100 0.05 "" false false 65535
      = Raycasting.Finished st.
Proof.
  intros (fuel & st & Hrun).
  assert (Raycasting.projectile_velocity
            (Raycasting.Vector.mk (/ 2 ^ 60) 0 0) 1
          = Raycasting.Vector.zero) as Hv.
  { unfold Raycasting.projectile_velocity. rewrite normalized_below.
    - apply Vector_eq; simpl; lra.
    - unfold Raycasting.Vector.length_squared,
        Raycasting.Vector.normalize_cutoff.
      simpl. lra. }
  destruct (loop_stuck Examples.weightless_scene 0%nat
              (Raycasting.projectile_origin Examples.weightless_scene 0%nat
                 (Raycasting.AtVector Raycasting.Vector.zero) false)
              (Raycasting.projectile_velocity
                 (Raycasting.Vector.mk (/ 2 ^ 60) 0 0) 1)
              100 0.05 "" false 65535
              (fun j => still_at_rest Examples.weightless_scene _ _ 0.05 j Hv
                           eq_refl)
              ltac:(lra) (fun _ => eq_refl) fuel 0%nat) as [st' Hstuck].
  change (Raycasting.advanced _ _ _ _ 0)
    with (Raycasting.mkLoop [] 0 0 None) in Hstuck.
  unfold Raycasting.projectile_run in Hrun. congruence.
Qed.


(** *** The box between two samples *)

Lemma unit_x_velocity :
  Raycasting.projectile_velocity (Raycasting.Vector.mk 1 0 0) 1
  = Raycasting.Vector.mk 1 0 0.
Proof.
  assert (Raycasting.Vector.length (Raycasting.Vector.mk 1 0 0) = 1%R) as Hlen.
  { unfold Raycasting.Vector.length; simpl.
    replace (1 * 1 + 0 * 0 + 0 * 0)%R with 1%R by lra. apply sqrt_1. }
  unfold Raycasting.projectile_velocity, Raycasting.Vector.normalized.
  rewrite Hlen.
  destruct (Rlt_dec _ _) as [_|H].
  - rewrite Rinv_1. apply Vector_eq; simpl; lra.
  - exfalso. apply H.
    unfold Raycasting.Vector.normalize_cutoff, Raycasting.Vector.length_squared.
    simpl. lra.
Qed.

Lemma box_sample_0 :
  Raycasting.sample Examples.box_scene Examples.box_from
    (Raycasting.Vector.mk 1 0 0) 1 0 = Examples.box_from.
Proof. apply Vector_eq; simpl; lra. Qed.

Lemma box_sample_1 :
  Raycasting.sample Examples.box_scene Examples.box_from
    (Raycasting.Vector.mk 1 0 0) 1 1 = Examples.box_to.
Proof. apply Vector_eq; simpl; lra. Qed.

Lemma box_ends_differ : Examples.box_from <> Examples.box_to.
Proof. intros [= H _]. lra. Qed.

(** C2 as stated fails at the box, with [local] set and the origin
    argument at (0, 0, 0).  The samples start at the origin moved by
    the caster's position, (5, 0, 0), not at (0, 0, 0).  And the
    engine is called as [caster.rayCast(start, target)], its first
    argument being the point to look towards (so [raycast] passes
    [dest] first): the ray from the previous sample towards the new
    one enters the box at x = 5.25, but the loop looks the other way
    and appends the point at x = 5.75. *)
Lemma projectile_local_box :
  Raycasting.raycast_projectile Examples.box_scene 2 0%nat
    (Raycasting.AtVector Raycasting.Vector.zero) (Raycasting.Vector.mk 1 0 0)
    1 10 1 "" false true 65535 false
  = Some (Ok (Examples.box_far,
              [Raycasting.Vector.mk 5 0 0; Raycasting.Vector.mk 5.75 0 (-3.675)],
              []))
  /\ Raycasting.trajectory Examples.box_scene Raycasting.Vector.zero
       (Raycasting.projectile_velocity (Raycasting.Vector.mk 1 0 0) 1) 0
     = Raycasting.Vector.zero
  /\ Raycasting.Vector.mk 5 0 0 <> Raycasting.Vector.zero
  /\ Raycasting.rayCast Examples.box_scene 0%nat
       (Raycasting.Vector.mk 6 0 (-4.9)) (Raycasting.Vector.mk 5 0 0)
       0 "" false 65535
     = Some (1%nat, Raycasting.Vector.mk 5.25 0 (-1.225),
             Raycasting.Vector.mk (-1) 0 0)
  /\ Raycasting.Vector.mk 5.25 0 (-1.225) <> Raycasting.Vector.mk 5.75 0 (-3.675).
Proof.
  split; [|split; [|split; [|split]]].
  - unfold Raycasting.raycast_projectile, Raycasting.projectile_run.
    rewrite unit_x_velocity.
    replace (Raycasting.projectile_origin _ _ _ true) with Examples.box_from
      by (apply Vector_eq; simpl; lra).
    change (Raycasting.mkLoop [] 0 0 None)
      with (Raycasting.advanced Examples.box_scene Examples.box_from
              (Raycasting.Vector.mk 1 0 0) 1 0).
    rewrite loop_S.
    destruct (Rlt_dec _ _) as [_|Hge]; [|simpl in Hge; lra].
    rewrite box_sample_0.
    cbn [Raycasting.previous Raycasting.rayCast Examples.box_scene].
    rewrite decide_False by (intros [_ H]; by apply box_ends_differ).
    rewrite decide_False by (intros [H _]; by apply box_ends_differ).
    rewrite loop_S.
    destruct (Rlt_dec _ _) as [_|Hge].
    + rewrite box_sample_1.
      cbn [Raycasting.previous Raycasting.rayCast Examples.box_scene].
      rewrite box_sample_0.
      rewrite decide_False
        by (intros [H _]; symmetry in H; by apply box_ends_differ).
      rewrite decide_True by done.
      cbn. by rewrite box_sample_0.
    + exfalso. apply Hge.
      cbn [Raycasting.travelled Raycasting.previous].
      rewrite box_sample_0.
      unfold Raycasting.Vector.length; simpl.
      match goal with
      | |- (0 + sqrt ?x < 10)%R => replace x with 0%R by lra
      end.
      rewrite sqrt_0. lra.
  - apply Vector_eq; simpl; lra.
  - intros [= H]. lra.
  - simpl. rewrite decide_True; done.
  - intros [= H _]. lra.
Qed.

(** ** Worked examples *)

Example brick_status_xor :
  let sensor b := Objects.Sensor.mk b in
  let cont := Objects.Controller.mk "Xor"
                [sensor true; sensor false; sensor true] ["Motion"%string] in
  let owner := Objects.mkOwner {["Xor"%string := cont]}
                 {["Xor"%string := "LOGIC_XOR"%string]} in
  Objects.controller_brick_status owner "Xor" = Ok false
  /\ Objects.ControllerBrick.positive <$> Objects.controller_brick owner "Xor"
     = Ok false
  /\ Objects.controller_brick_status owner "And" = Raise KeyError.
Proof. vm_compute. done. Qed.

Example brick_status_unsupported :
  let cont := Objects.Controller.mk "Py" [Objects.Sensor.mk true] [] in
  let owner := Objects.mkOwner {["Py"%string := cont]}
                 {["Py"%string := "PYTHON"%string]} in
  Objects.controller_brick_status owner "Py"
  = Raise LogicControllerNotSupportedError.
Proof. vm_compute. done. Qed.

Example brick_status_xnor :
  let sensor b := Objects.Sensor.mk b in
  let cont := Objects.Controller.mk "Same" [sensor false; sensor false] [] in
  let owner := Objects.mkOwner {["Same"%string := cont]}
                 {["Same"%string := "LOGIC_XNOR"%string]} in
  Objects.controller_brick_status owner "Same" = Ok true.
Proof. vm_compute. done. Qed.

Example camera_scale_written :
  let e := mkEngine {[(7%nat, "ortho_scale"%string) := PFloat 1]}
             (fun _ _ => None) [] in
  let n := Nodes.ULSetCameraOrthoScale.mk (RT := Nodes.spec_runtime)
             false (PBool true) (PRef 7) (PFloat 2) PNone in
  let o := Nodes.ULSetCameraOrthoScale.evaluate n e in
  Nodes.ULSetCameraOrthoScale.done (Nodes.node o) = PBool true
  /\ attrs (Nodes.engine o) !! (7%nat, "ortho_scale"%string) = Some (PFloat 2)
  /\ Nodes.ULSetCameraOrthoScale.base (Nodes.node o) = true.
Proof. vm_compute. done. Qed.

Example camera_scale_waiting :
  let e := mkEngine {[(7%nat, "ortho_scale"%string) := PFloat 1]}
             (fun _ _ => None) [] in
  let n := Nodes.ULSetCameraOrthoScale.mk (RT := Nodes.spec_runtime)
             false (PBool true) (PRef 7) PWaiting PNone in
  let o := Nodes.ULSetCameraOrthoScale.evaluate n e in
  Nodes.ULSetCameraOrthoScale.done (Nodes.node o) = PBool false
  /\ Nodes.engine o = e
  /\ Nodes.ULSetCameraOrthoScale.base (Nodes.node o) = false.
Proof. vm_compute. done. Qed.

Example curve_name_is_kept :
  let e := mkEngine {[(5%nat, "name"%string) := PStr "Path"]}
             (fun _ _ => None) [] in
  let c := Objects.ULCurve.mk (PRef 5) in
  Objects.ULCurve.name c (Objects.ULCurve.set_name c (PStr "Road") e)
  = Ok (PStr "Path").
Proof. vm_compute. done. Qed.

(** * Further properties *)

(** ** [ray_data] *)

Section ray_data_properties.
Import Raycasting.
Local Open Scope R_scope.

Lemma length_sub_sym (a b : Vector.t) :
  Vector.length (a - b) = Vector.length (b - a).
Proof. unfold Vector.length; simpl. f_equal. lra. Qed.

Lemma length_of_zero : Vector.length Vector.zero = 0.
Proof.
  unfold Vector.length; simpl.
  replace (0 * 0 + 0 * 0 + 0 * 0) with 0 by lra. apply sqrt_0.
Qed.

Lemma add_sub_cancel (a b : Vector.t) : (a + (b - a))%V = b.
Proof. apply Vector_eq; simpl; lra. Qed.

Lemma sub_self (a : Vector.t) : (a - a)%V = Vector.zero.
Proof. apply Vector_eq; simpl; lra. Qed.

Lemma add_zero_scaled (a : Vector.t) (k : R) :
  (a + Vector.scale Vector.zero k)%V = a.
Proof. apply Vector_eq; simpl; lra. Qed.


(** X2.  When [dest] lies on [origin] there is no direction: [d] is the
    zero vector and the returned destination is [origin], whatever
    [dist] is. *)
Theorem ray_data_without_direction (s : Scene) (origin dest : Place)
  (local : bool) (dist : R) :
  adjusted_dest s origin dest local = position s origin ->
  let '(d, dist', dest') := ray_data s origin dest local dist in
  d = Vector.zero /\ dest' = position s origin.
Proof.
  intros Hsame. unfold ray_data. fold (adjusted_dest s origin dest local).
  rewrite Hsame, sub_self, normalized_below.
  - split; [done|]. apply add_zero_scaled.
  - rewrite length_squared_zero. pose proof cutoff_pos. lra.
Qed.


End ray_data_properties.

Lemma ray_data_without_direction_witness :
  let s := Examples.empty_scene in
  let p := Raycasting.AtVector (Raycasting.Vector.mk 1 2 3) in
  let '(d, dist', dest') := Raycasting.ray_data s p p false 7 in
  d = Raycasting.Vector.zero /\ dest' = Raycasting.position s p.
Proof.
  apply (ray_data_without_direction Examples.empty_scene
           (Raycasting.AtVector (Raycasting.Vector.mk 1 2 3))
           (Raycasting.AtVector (Raycasting.Vector.mk 1 2 3)) false 7).
  reflexivity.
Defined.

(** ** [raycast] *)

Section raycast_more.
Import Raycasting.
Local Open Scope R_scope.

(** X4.  With [xray] off the filter loop is passed at most once:
    [raycast] always returns, and what it returns is either nothing or
    the first object the engine reported. *)
Theorem raycast_without_xray_one_pass (s : Scene) (fuel : nat) (caster : Ref)
  (origin dest : Vector.t) (distance : R) (prop material : string)
  (exclude local : bool) (mask : Z) (visualize : bool) :
  let '(direction, dist', dest') :=
    ray_data s (AtVector origin) (AtVector dest) local distance in
  let first :=
    rayCast s caster dest' origin dist' (if exclude then ""%string else prop)
      false mask in
  exists r,
    raycast s (S fuel) caster origin dest distance prop material exclude
      false local mask visualize = Some r
    /\ match r with
       | Ok (hit, d, _) => (hit = None \/ hit = first) /\ d = direction
       | Raise e => e = AttributeError
       end.
Proof.
  unfold raycast.
  destruct (ray_data s (AtVector origin) (AtVector dest) local distance)
    as [[direction dist'] dest'].
  destruct (rayCast s caster dest' origin dist' _ false mask)
    as [[[obj point] normal]|] eqn:Hfirst;
    [|eexists; split; [reflexivity|]; simpl; auto].
  destruct (nonempty material || _);
    [|eexists; split; [reflexivity|]; simpl; auto].
  cbn [filter_loop].
  destruct (filtered_out s material prop exclude obj) as [c|e] eqn:Hc.
  - destruct (c && _); simpl; eexists; (split; [reflexivity|]); simpl; auto.
  - eexists. split; [done|].
    unfold filtered_out in Hc.
    destruct (material_names (material_slots s obj)) eqn:Hn.
    + by destruct exclude.
    + assert (e0 = AttributeError) as ->.
      { clear -Hn. revert e0 Hn.
        induction (material_slots s obj) as [|[name|] slots IH]; intros e0 Hn;
          simpl in Hn; try congruence.
        destruct (material_names slots); simpl in Hn; [congruence|].
        apply IH. congruence. }
      destruct exclude; simpl in Hc; congruence.
Qed.

Lemma filter_loop_S (s : Scene) (origin dest : Vector.t)
  (prop material exclude_prop : string) (exclude xray : bool) (fuel : nat)
  (obj : Ref) (point normal : Vector.t) (leftover : R) :
  filter_loop s origin dest prop material exclude_prop exclude xray (S fuel)
    obj point normal leftover
  = match filtered_out s material exclude_prop exclude obj with
    | Raise e => Some (Raise e)
    | Ok c =>
        if c && bool_decide (leftover > 0) then
          if negb xray then Some (Ok None)
          else
            match rayCast s obj dest point leftover prop xray 65535 with
            | None => Some (Ok None)
            | Some (obj', point', normal') =>
                filter_loop s origin dest prop material exclude_prop exclude
                  xray fuel obj' point' normal'
                  (leftover - Vector.length (origin - point))
            end
        else Some (Ok (Some (obj, point, normal)))
    end.
Proof. reflexivity. Qed.

(** With [xray] on, each pass of the filter loop takes the distance
    from [origin] to the point it leaves off the distance left. *)
Lemma filter_loop_ends (s : Scene) (origin dest : Vector.t)
  (prop material exclude_prop : string) (exclude xray : bool) (c : R) :
  0 < c ->
  (forall caster to from dist p x m obj point normal,
     rayCast s caster to from dist p x m = Some (obj, point, normal) ->
     c <= Vector.length (origin - point)) ->
  forall n obj point normal leftover,
    c <= Vector.length (origin - point) ->
    leftover <= INR n * c ->
    filter_loop s origin dest prop material exclude_prop exclude xray (S n)
      obj point normal leftover <> None.
Proof.
  intros Hc Hfar. induction n as [|n IH]; intros obj point normal leftover Hp Hl.
  - rewrite filter_loop_S. destruct (filtered_out _ _ _ _ _) as [b|]; [|done].
    rewrite bool_decide_eq_false_2 by (simpl in Hl; lra).
    by rewrite andb_false_r.
  - rewrite filter_loop_S. destruct (filtered_out _ _ _ _ _) as [b|]; [|done].
    destruct (b && _); [|done].
    destruct (negb xray); [done|].
    destruct (rayCast s obj dest point leftover prop xray 65535)
      as [[[obj' point'] normal']|] eqn:Hcast; [|done].
    apply IH; [by eapply Hfar|].
    rewrite S_INR in Hl. lra.
Qed.

(** X5.  With [xray] on, [raycast] returns as long as the engine never
    reports a hit closer than some positive [c] to [origin]: every
    pass of the loop then uses up at least [c] of the distance. *)
Theorem raycast_with_xray_returns (s : Scene) (caster : Ref)
  (origin dest : Vector.t) (distance : R) (prop material : string)
  (exclude xray local : bool) (mask : Z) (visualize : bool) (c : R) :
  0 < c ->
  (forall caster to from dist p x m obj point normal,
     rayCast s caster to from dist p x m = Some (obj, point, normal) ->
     c <= Vector.length (origin - point)) ->
  exists fuel,
    raycast s fuel caster origin dest distance prop material exclude xray
      local mask visualize <> None.
Proof.
  intros Hc Hfar. unfold raycast.
  destruct (ray_data s (AtVector origin) (AtVector dest) local distance)
    as [[direction dist'] dest'].
  destruct (rayCast s caster dest' origin dist' _ xray mask)
    as [[[obj point] normal]|] eqn:Hfirst; [|by exists 0%nat].
  destruct (nonempty material || _); [|by exists 0%nat].
  destruct (INR_unbounded ((dist' - Vector.length (origin - point)) / c))
    as [n Hn].
  exists (S n).
  pose proof (filter_loop_ends s origin dest'
                (if exclude then ""%string else prop) material prop exclude
                xray c Hc Hfar n obj point normal
                (dist' - Vector.length (origin - point))) as Hends.
  assert (dist' - Vector.length (origin - point) <= INR n * c) as Hl.
  { apply (Rmult_lt_compat_r c) in Hn; [|done].
    unfold Rdiv in Hn. rewrite Rmult_assoc, Rinv_l, Rmult_1_r in Hn; lra. }
  specialize (Hends ltac:(by eapply Hfar) Hl).
  by destruct (filter_loop _ _ _ _ _ _ _ _ _ _ _ _ _) as [[|]|].
Qed.

(** X6.  With [exclude] set and no material asked for, the engine is
    asked for any object, and an object that carries the property is
    rejected.  With [xray] off and distance left beyond the hit: an
    object that does not carry the excluded property is returned; for
    one that carries it [raycast] returns no object, unless one of its
    material slots is empty, and then the call raises
    [AttributeError]. *)
Theorem raycast_exclude_rejects_property (s : Scene) (fuel : nat)
  (caster : Ref) (origin dest : Vector.t) (distance : R) (prop : string)
  (local : bool) (mask : Z)
  (direction dest' : Vector.t) (dist' : R)
  (obj : Ref) (point normal : Vector.t) :
  ray_data s (AtVector origin) (AtVector dest) local distance
  = (direction, dist', dest') ->
  rayCast s caster dest' origin dist' "" false mask
  = Some (obj, point, normal) ->
  dist' - Vector.length (origin - point) > 0 ->
  raycast s (S fuel) caster origin dest distance prop "" true false local
    mask false
  = Some (if str_in prop (getPropertyNames s obj) then
            match material_names (material_slots s obj) with
            | Ok _ => Ok (None, direction, [])
            | Raise e => Raise e
            end
          else Ok (Some (obj, point, normal), direction, [])).
Proof.
  intros Hrd Hhit Hleft.
  unfold raycast. rewrite Hrd, Hhit. simpl.
  destruct (str_in prop (getPropertyNames s obj)) eqn:Hin; [|done].
  unfold filtered_out.
  destruct (material_names (material_slots s obj)) as [names|e]; [|done].
  simpl. rewrite ?Hin, ?orb_true_r. simpl.
  by rewrite bool_decide_eq_true_2.
Qed.

(** X7.  [visualize] does not change what [raycast] returns.  It draws
    one line from [origin]: green to the hit point when an object is
    returned, red along the ray otherwise. *)
Theorem raycast_visualize_draws_one_line (s : Scene) (fuel : nat)
  (caster : Ref) (origin dest : Vector.t) (distance : R)
  (prop material : string) (exclude xray local : bool) (mask : Z) :
  let '(direction, dist', _) :=
    ray_data s (AtVector origin) (AtVector dest) local distance in
  match raycast s fuel caster origin dest distance prop material exclude
          xray local mask false with
  | None =>
      raycast s fuel caster origin dest distance prop material exclude
        xray local mask true = None
  | Some (Raise e) =>
      raycast s fuel caster origin dest distance prop material exclude
        xray local mask true = Some (Raise e)
  | Some (Ok (hit, d, drawn)) =>
      drawn = []
      /\ raycast s fuel caster origin dest distance prop material exclude
           xray local mask true
         = Some (Ok (hit, d,
                     [match hit with
                      | Some (_, point, _) =>
                          mkDraw origin point [0; 1; 0; 1]
                      | None =>
                          mkDraw origin
                            (Vector.scale direction dist' + origin)
                            [1; 0; 0; 1]
                      end]))
  end.
Proof.
  unfold raycast.
  destruct (ray_data s (AtVector origin) (AtVector dest) local distance)
    as [[direction dist'] dest'].
  destruct (rayCast s caster dest' origin dist' _ xray mask)
    as [[[obj point] normal]|]; [|done].
  destruct (nonempty material || _); [|done].
  destruct (filter_loop _ _ _ _ _ _ _ _ _ _ _ _ _) as [[hit|e]|]; try done.
  split; [done|]. by destruct hit as [[[obj' point'] normal']|].
Qed.

End raycast_more.

Lemma wall_distance :
  Raycasting.Vector.length
    (Raycasting.Vector.sub (Raycasting.Vector.mk 0 0 0)
       (Raycasting.Vector.mk 1 0 0)) = 1%R.
Proof.
  unfold Raycasting.Vector.length; simpl.
  replace ((0 - 1) * (0 - 1) + (0 - 0) * (0 - 0) + (0 - 0) * (0 - 0))%R
    with 1%R by lra.
  apply sqrt_1.
Qed.

Lemma raycast_with_xray_returns_witness :
  exists fuel,
    Raycasting.raycast Examples.wall_scene fuel 0%nat
      (Raycasting.Vector.mk 0 0 0) (Raycasting.Vector.mk 10 0 0) 5
      "" "Steel" false true false 65535 false <> None.
Proof.
  apply (raycast_with_xray_returns Examples.wall_scene 0%nat
           (Raycasting.Vector.mk 0 0 0) (Raycasting.Vector.mk 10 0 0) 5
           "" "Steel" false true false 65535 false 1).
  - lra.
  - intros caster to from dist p x m obj point normal [= _ <- _].
    rewrite wall_distance. lra.
Defined.

Lemma enemy_wall_ray_data :
  (Raycasting.ray_data Examples.enemy_wall_scene
     (Raycasting.AtVector (Raycasting.Vector.mk 0 0 0))
     (Raycasting.AtVector (Raycasting.Vector.mk 10 0 0)) false 5).1.2 = 5%R.
Proof. simpl. destruct (Req_dec_T 5 0); [lra | reflexivity]. Qed.

Lemma raycast_exclude_rejects_property_witness :
  Raycasting.raycast Examples.enemy_wall_scene 1 0%nat
    (Raycasting.Vector.mk 0 0 0) (Raycasting.Vector.mk 10 0 0) 5
    "enemy" "" true false false 65535 false
  = Some (Ok (None,
              (Raycasting.ray_data Examples.enemy_wall_scene
                 (Raycasting.AtVector (Raycasting.Vector.mk 0 0 0))
                 (Raycasting.AtVector (Raycasting.Vector.mk 10 0 0))
                 false 5).1.1,
              [])).
Proof.
  apply (raycast_exclude_rejects_property Examples.enemy_wall_scene 0 0%nat
           (Raycasting.Vector.mk 0 0 0) (Raycasting.Vector.mk 10 0 0) 5
           "enemy" false 65535
           (Raycasting.ray_data Examples.enemy_wall_scene
              (Raycasting.AtVector (Raycasting.Vector.mk 0 0 0))
              (Raycasting.AtVector (Raycasting.Vector.mk 10 0 0)) false 5).1.1
           (Raycasting.ray_data Examples.enemy_wall_scene
              (Raycasting.AtVector (Raycasting.Vector.mk 0 0 0))
              (Raycasting.AtVector (Raycasting.Vector.mk 10 0 0)) false 5).2
           (Raycasting.ray_data Examples.enemy_wall_scene
              (Raycasting.AtVector (Raycasting.Vector.mk 0 0 0))
              (Raycasting.AtVector (Raycasting.Vector.mk 10 0 0)) false 5).1.2
           1%nat (Raycasting.Vector.mk 1 0 0) (Raycasting.Vector.mk (-1) 0 0));
    try reflexivity.
  rewrite enemy_wall_ray_data. apply wall_leftover.
Defined.

(** ** [raycast_projectile] *)

Section projectile_more.
Import Raycasting.
Local Open Scope R_scope.

Lemma loop_after_first (s : Scene) (caster : Ref) (origin v : Vector.t)
  (distance resolution : R) (prop : string) (xray : bool) (mask : Z)
  (fuel : nat) :
  forall k,
    match projectile_loop s caster origin v distance resolution prop xray mask
            fuel (advanced s origin v resolution (S k)) with
    | Finished st => hit st <> None /\ points st <> []
    | OutOfFuel _ => True
    end.
Proof.
  induction fuel as [|fuel IH]; intros k.
  - rewrite loop_0. by destruct (Rlt_dec _ _).
  - rewrite loop_S. destruct (Rlt_dec _ _); [|done].
    destruct (rayCast _ _ _ _ _ _ _ _) as [[[obj point] normal]|];
      [done|apply IH].
Qed.

(** X8.  [raycast_projectile] needs a positive [distance].  With
    [distance] at zero or below the loop body never runs, [obj] is
    never bound and the [return] raises [UnboundLocalError]; with a
    positive [distance] it never raises and the list of points it
    returns is not empty. *)
Theorem raycast_projectile_needs_distance (s : Scene) (fuel : nat)
  (caster : Ref) (origin : Place) (aim : Vector.t)
  (power distance resolution : R) (prop : string) (xray local : bool)
  (mask : Z) (visualize : bool) :
  if Rlt_dec 0 distance then
    match raycast_projectile s fuel caster origin aim power distance
            resolution prop xray local mask visualize with
    | Some (Raise _) => False
    | Some (Ok (_, points, _)) => points <> []
    | None => True
    end
  else
    raycast_projectile s fuel caster origin aim power distance resolution
      prop xray local mask visualize = Some (Raise UnboundLocalError).
Proof.
  unfold raycast_projectile, projectile_run.
  change (mkLoop [] 0 0 None)
    with (advanced s (projectile_origin s caster origin local)
            (projectile_velocity aim power) resolution 0).
  destruct (Rlt_dec 0 distance) as [Hpos|Hneg].
  - destruct fuel as [|fuel].
    + rewrite loop_0. simpl. by destruct (Rlt_dec 0 distance).
    + rewrite loop_S. simpl travelled.
      destruct (Rlt_dec 0 distance); [|done].
      destruct (rayCast _ _ _ _ _ _ _ _) as [[[obj point] normal]|].
      * done.
      * pose proof (loop_after_first s caster
                      (projectile_origin s caster origin local)
                      (projectile_velocity aim power) distance resolution
                      prop xray mask fuel 0) as Hloop.
        destruct (projectile_loop _ _ _ _ _ _ _ _ _ _ _) as [st|st]; [|done].
        destruct Hloop as [Hhit Hpoints]. by destruct (hit st).
  - destruct fuel as [|fuel].
    + rewrite loop_0. simpl. by destruct (Rlt_dec 0 distance).
    + rewrite loop_S. simpl travelled. by destruct (Rlt_dec 0 distance).
Qed.

Lemma polyline_length (points : list Vector.t) (color : list R) :
  length (polyline points color) = (length points - 1)%nat.
Proof.
  induction points as [|p [|q rest] IH]; [done..|].
  cbn [polyline length] in *. rewrite IH. lia.
Qed.

Lemma polyline_lookup (points : list Vector.t) (color : list R) (i : nat)
  (p q : Vector.t) :
  points !! i = Some p -> points !! S i = Some q ->
  polyline points color !! i = Some (mkDraw p q color).
Proof.
  revert i. induction points as [|a [|b rest] IH]; intros i Hp Hq; [done..|].
  destruct i as [|i].
  - simpl in *. congruence.
  - cbn [polyline]. change ((b :: rest) !! i = Some p) in Hp.
    change ((b :: rest) !! S i = Some q) in Hq.
    by apply IH.
Qed.

(** X9.  With [visualize] the path is drawn as the lines between
    consecutive points, one less than there are points, all green when
    an object was hit and all red otherwise; without it nothing is
    drawn. *)
Theorem raycast_projectile_draws_path (s : Scene) (fuel : nat)
  (caster : Ref) (origin : Place) (aim : Vector.t)
  (power distance resolution : R) (prop : string) (xray local : bool)
  (mask : Z) (visualize : bool) :
  match raycast_projectile s fuel caster origin aim power distance
          resolution prop xray local mask visualize with
  | Some (Ok (h, points, drawn)) =>
      if visualize then
        length drawn = (length points - 1)%nat
        /\ forall i p q,
             points !! i = Some p -> points !! S i = Some q ->
             drawn !! i
             = Some (mkDraw p q
                       (match h with
                        | Some _ => [0; 1; 0]
                        | None => [1; 0; 0]
                        end))
      else drawn = []
  | _ => True
  end.
Proof.
  unfold raycast_projectile.
  destruct (projectile_run _ _ _ _ _ _ _ _ _ _ _ _) as [st|]; [|done].
  destruct (hit st) as [h|]; [|done].
  destruct visualize; [|done].
  split; [apply polyline_length|].
  intros i p q Hp Hq. by apply polyline_lookup.
Qed.

End projectile_more.

(** ** [raycast_face] *)

Section raycast_face_properties.
Import Raycasting.
Local Open Scope R_scope.

Variable s : Scene.
Variable rayCast_poly :
  Ref -> Vector.t -> Vector.t -> R -> string -> bool -> Z ->
  option (Ref * Vector.t * Vector.t * FaceInfo).

(** X10.  When [raycast_face] rejects the first hit for its material
    (with [exclude] and [xray] off and distance left), it returns
    [None] for the object, the point and the normal, but the polygon
    and the UV coordinates it returns are still those of the rejected
    hit. *)
Theorem raycast_face_keeps_rejected_face (fuel : nat) (caster : Ref)
  (origin dest : Place) (distance : R) (prop material : string)
  (local : bool) (mask : Z) (visualize : bool)
  (direction dest' : Vector.t) (dist' : R)
  (obj : Ref) (point normal : Vector.t) (face : FaceInfo)
  (names : list string) :
  ray_data s origin dest local distance = (direction, dist', dest') ->
  nonempty material = true ->
  rayCast_poly caster dest' (position s origin) dist' prop false mask
  = Some (obj, point, normal, face) ->
  material_names (material_slots s obj) = Ok names ->
  str_in material names = false ->
  dist' - Vector.length (position s origin - point) > 0 ->
  exists drawn,
    raycast_face s rayCast_poly (S fuel) caster origin dest distance prop
      material false false local mask visualize
    = Some (Ok (None, direction, face, drawn)).
Proof.
  intros Hrd Hmat Hhit Hnames Hin Hleft.
  unfold raycast_face. rewrite Hrd, Hhit, Hmat. simpl.
  unfold filtered_out. rewrite Hnames. simpl. rewrite Hin. simpl.
  rewrite bool_decide_eq_true_2 by done.
  eauto.
Qed.

Hypothesis poly_agrees :
  forall caster objto objfrom dist prop xray mask,
    hit_of <$> rayCast_poly caster objto objfrom dist prop xray mask
    = rayCast s caster objto objfrom dist prop xray mask.

Lemma face_loop_is_filter_loop (origin dest : Vector.t)
  (prop material exclude_prop : string) (exclude xray : bool) (fuel : nat) :
  forall obj point normal face leftover,
    option_map (fmap fst)
      (face_loop s rayCast_poly origin dest prop material exclude_prop
         exclude xray fuel obj point normal face leftover)
    = filter_loop s origin dest prop material exclude_prop exclude xray fuel
        obj point normal leftover.
Proof.
  induction fuel as [|fuel IH]; intros obj point normal face leftover;
    [done|].
  rewrite filter_loop_S. cbn [face_loop].
  destruct (filtered_out _ _ _ _ _) as [c|]; [|done].
  destruct (c && _); [|done].
  destruct (negb xray); [done|].
  rewrite <- poly_agrees.
  destruct (rayCast_poly obj dest point leftover prop xray 65535)
    as [[[[obj' point'] normal'] face']|]; [|done].
  apply IH.
Qed.

(** X11.  [raycast_face] returns what [raycast] returns, and more: for
    vector arguments, an engine that reports the same object, point
    and normal with and without [poly=2], and material slots that all
    carry a named material, dropping the polygon and the UV
    coordinates from the result of [raycast_face] gives the result of
    [raycast], lines drawn included. *)
Theorem raycast_face_extends_raycast (fuel : nat) (caster : Ref)
  (origin dest : Vector.t) (distance : R) (prop material : string)
  (exclude xray local : bool) (mask : Z) (visualize : bool) :
  (forall obj, exists names,
     material_names (material_slots s obj) = Ok names
     /\ str_in "" names = false) ->
  option_map (fmap without_face)
    (raycast_face s rayCast_poly (S fuel) caster (AtVector origin)
       (AtVector dest) distance prop material exclude xray local mask
       visualize)
  = raycast s (S fuel) caster origin dest distance prop material exclude xray
      local mask visualize.
Proof.
  intros Hslots. unfold raycast_face, raycast.
  destruct (ray_data s (AtVector origin) (AtVector dest) local distance)
    as [[direction dist'] dest'].
  cbn [position].
  rewrite <- (poly_agrees caster dest' origin dist').
  destruct (rayCast_poly caster dest' origin dist' _ xray mask)
    as [[[[obj point] normal] face]|]; [|done].
  cbn [fmap option_fmap option_map hit_of].
  destruct (nonempty material) eqn:Hmat; simpl orb.
  - rewrite <- (face_loop_is_filter_loop _ _ _ _ _ _ _ _ _ _ _ face).
    destruct (face_loop _ _ _ _ _ _ _ _ _ _ _ _ _ _ _) as [[[h f]|]|]; done.
  - destruct exclude; [|done]. simpl andb.
    destruct (str_in prop (getPropertyNames s obj)) eqn:Hin.
    + rewrite <- (face_loop_is_filter_loop _ _ _ _ _ _ _ _ _ _ _ face).
      destruct (face_loop _ _ _ _ _ _ _ _ _ _ _ _ _ _ _) as [[[h f]|]|]; done.
    + cbn [face_loop]. unfold filtered_out.
      destruct (Hslots obj) as (names & -> & Hempty).
      assert (material = ""%string) as ->.
      { unfold nonempty in Hmat. apply negb_false_iff in Hmat.
        by apply String.eqb_eq in Hmat. }
      simpl. by rewrite Hempty, Hin.
Qed.

End raycast_face_properties.

Lemma raycast_face_keeps_rejected_face_witness :
  exists drawn,
    Raycasting.raycast_face Examples.wall_scene Examples.wall_poly 1 0%nat
      (Raycasting.AtVector (Raycasting.Vector.mk 0 0 0))
      (Raycasting.AtVector (Raycasting.Vector.mk 10 0 0)) 5
      "" "Steel" false false false 65535 false
    = Some (Ok (None,
                (Raycasting.ray_data Examples.wall_scene
                   (Raycasting.AtVector (Raycasting.Vector.mk 0 0 0))
                   (Raycasting.AtVector (Raycasting.Vector.mk 10 0 0))
                   false 5).1.1,
                (Some 9%nat, Some (0.5%R, 0.5%R)),
                drawn)).
Proof.
  apply (raycast_face_keeps_rejected_face Examples.wall_scene
           Examples.wall_poly 0 0%nat
           (Raycasting.AtVector (Raycasting.Vector.mk 0 0 0))
           (Raycasting.AtVector (Raycasting.Vector.mk 10 0 0)) 5
           "" "Steel" false 65535 false
           (Raycasting.ray_data Examples.wall_scene
              (Raycasting.AtVector (Raycasting.Vector.mk 0 0 0))
              (Raycasting.AtVector (Raycasting.Vector.mk 10 0 0)) false 5).1.1
           (Raycasting.ray_data Examples.wall_scene
              (Raycasting.AtVector (Raycasting.Vector.mk 0 0 0))
              (Raycasting.AtVector (Raycasting.Vector.mk 10 0 0)) false 5).2
           (Raycasting.ray_data Examples.wall_scene
              (Raycasting.AtVector (Raycasting.Vector.mk 0 0 0))
              (Raycasting.AtVector (Raycasting.Vector.mk 10 0 0)) false 5).1.2
           1%nat (Raycasting.Vector.mk 1 0 0) (Raycasting.Vector.mk (-1) 0 0)
           (Some 9%nat, Some (0.5%R, 0.5%R)) ["Wood"%string]);
    try reflexivity.
  rewrite wall_ray_data. apply wall_leftover.
Defined.

Lemma raycast_face_extends_raycast_witness :
  option_map (fmap Raycasting.without_face)
    (Raycasting.raycast_face Examples.wall_scene Examples.wall_poly 1 0%nat
       (Raycasting.AtVector (Raycasting.Vector.mk 0 0 0))
       (Raycasting.AtVector (Raycasting.Vector.mk 10 0 0)) 5
       "enemy" "" true false false 65535 true)
  = Raycasting.raycast Examples.wall_scene 1 0%nat
      (Raycasting.Vector.mk 0 0 0) (Raycasting.Vector.mk 10 0 0) 5
      "enemy" "" true false false 65535 true.
Proof.
  apply (raycast_face_extends_raycast Examples.wall_scene Examples.wall_poly
           (fun _ _ _ _ _ _ _ => eq_refl) 0 0%nat
           (Raycasting.Vector.mk 0 0 0) (Raycasting.Vector.mk 10 0 0) 5
           "enemy" "" true false false 65535 true).
  intros obj. by exists ["Wood"%string].
Defined.

(** ** [move_to] *)

Section move_to_properties.
Import Raycasting Motion.
Local Open Scope R_scope.

(** [move_to] reports arrival exactly when the object is within
    [distance] of the destination, and then it leaves the object as it
    is, in both modes. *)
Lemma move_to_arrived (o : Body) (destination_point : Vector.t)
  (speed time_per_frame : R) (dynamic : bool) (distance : R) :
  let r := move_to o destination_point speed time_per_frame dynamic distance in
  if Rle_dec (Vector.length (destination_point - worldPosition o)) distance
  then r = (true, o)
  else r.1 = false.
Proof.
  unfold move_to. by destruct dynamic, (Rle_dec _ _).
Qed.

Lemma unfold_normalized (v : Vector.t) :
  Vector.normalize_cutoff < Vector.length_squared v ->
  Vector.normalized v = Vector.scale v (/ Vector.length v).
Proof. intros Hv. unfold Vector.normalized. by destruct (Rlt_dec _ _). Qed.

(** What a step without physics leaves of the way to go. *)
Lemma kinematic_offset (o : Body) (destination_point : Vector.t)
  (speed time_per_frame distance : R) :
  distance < Vector.length (destination_point - worldPosition o) ->
  Vector.normalize_cutoff
  < Vector.length_squared (destination_point - worldPosition o) ->
  let r := move_to o destination_point speed time_per_frame false distance in
  let dst := Vector.length (destination_point - worldPosition o) in
  (destination_point - worldPosition r.2)%V
  = Vector.scale (destination_point - worldPosition o)
      (1 - speed * time_per_frame / dst)
  /\ Vector.length (destination_point - worldPosition r.2)
     = Rabs (dst - speed * time_per_frame).
Proof.
  intros Hfar Hcut r dst.
  pose proof cutoff_pos as Hc.
  pose proof (length_pos (destination_point - worldPosition o) ltac:(lra))
    as Hpos.
  fold dst in Hpos.
  assert ((destination_point - worldPosition r.2)%V
          = Vector.scale (destination_point - worldPosition o)
              (1 - speed * time_per_frame / dst)) as Hoff.
  { unfold r, move_to. destruct (Rle_dec _ _) as [Hle|_]; [lra|].
    cbn [fst snd worldPosition]. rewrite unfold_normalized by done.
    fold dst. apply Vector_eq; simpl; field; lra. }
  split; [done|].
  rewrite Hoff, length_scale. fold dst.
  rewrite <- (Rabs_right dst) at 2 by lra.
  rewrite <- Rabs_mult. f_equal. field. lra.
Qed.



Lemma move_steps_arrive (destination_point : Vector.t)
  (speed time_per_frame distance : R) (N : nat) :
  0 < speed * time_per_frame <= distance ->
  Vector.normalize_cutoff <= distance * distance ->
  forall o,
    Vector.length (destination_point - worldPosition o)
    <= distance + INR N * (speed * time_per_frame) ->
    exists n,
      move_to (move_steps n o destination_point speed time_per_frame distance)
        destination_point speed time_per_frame false distance
      = (true, move_steps n o destination_point speed time_per_frame distance).
Proof.
  intros [Hk Hd] Hcut. induction N as [|N IH]; intros o Hfar.
  - exists 0%nat. simpl in *. unfold move_to.
    destruct (Rle_dec _ _); [done|lra].
  - destruct (Rle_dec (Vector.length (destination_point - worldPosition o))
                distance) as [Hle|Hgt].
    + exists 0%nat. simpl. unfold move_to. by destruct (Rle_dec _ _).
    + assert (Vector.normalize_cutoff
              < Vector.length_squared (destination_point - worldPosition o))
        as Hlong.
      { rewrite <- length_sqr. nra. }
      destruct (kinematic_offset o destination_point speed time_per_frame
                  distance ltac:(lra) Hlong) as [_ Hstep].
      destruct (IH (move_to o destination_point speed time_per_frame false
                      distance).2) as [n Hn].
      { rewrite Hstep, Rabs_right by lra. rewrite S_INR in Hfar. lra. }
      by exists (S n).
Qed.


End move_to_properties.

Lemma length_along_z (c : R) :
  (0 <= c)%R ->
  Raycasting.Vector.length
    (Raycasting.Vector.sub (Raycasting.Vector.mk 0 0 c)
       (Raycasting.Vector.mk 0 0 0)) = c.
Proof.
  intros Hc. unfold Raycasting.Vector.length; simpl.
  replace ((0 - 0) * (0 - 0) + (0 - 0) * (0 - 0) + (c - 0) * (c - 0))%R
    with (c * c)%R by lra.
  by apply sqrt_square.
Qed.

Lemma length_along_x (c : R) :
  (0 <= c)%R ->
  Raycasting.Vector.length
    (Raycasting.Vector.sub (Raycasting.Vector.mk c 0 0)
       (Raycasting.Vector.mk 0 0 0)) = c.
Proof.
  intros Hc. unfold Raycasting.Vector.length; simpl.
  replace ((c - 0) * (c - 0) + (0 - 0) * (0 - 0) + (0 - 0) * (0 - 0))%R
    with (c * c)%R by lra.
  by apply sqrt_square.
Qed.




(** ** Logic bricks, continued *)

Section brick_more.
Import Objects.

Lemma py_in_false (l : list bool) : py_in false l = negb (forallb (fun b : bool => b) l).
Proof. induction l as [|[] l IH]; simpl; [done| |done]. by rewrite IH. Qed.

Lemma py_in_true (l : list bool) : py_in true l = existsb (fun b : bool => b) l.
Proof. induction l as [|[] l IH]; simpl; [done|done|]. by rewrite IH. Qed.

Lemma forallb_positives (cont : Controller.t) :
  forallb (fun b : bool => b) (positives cont) = forallb Sensor.positive (Controller.sensors cont).
Proof.
  unfold positives.
  induction (Controller.sensors cont) as [|a l IH]; simpl; [done|].
  by rewrite IH.
Qed.

Lemma existsb_positives (cont : Controller.t) :
  existsb (fun b : bool => b) (positives cont) = existsb Sensor.positive (Controller.sensors cont).
Proof.
  unfold positives.
  induction (Controller.sensors cont) as [|a l IH]; simpl; [done|].
  by rewrite IH.
Qed.

(** X15.  For a controller with at least one sensor, the status of an
    AND brick says that all sensors are positive, that of an OR brick
    that some sensor is, and NAND and NOR are their negations. *)
Theorem brick_status_all_any (owner : Owner) (name : string)
  (cont : Controller.t) (state : string) :
  controllers owner !! name = Some cont ->
  game_controllers owner !! name = Some state ->
  Controller.sensors cont <> [] ->
  let all := forallb Sensor.positive (Controller.sensors cont) in
  let any := existsb Sensor.positive (Controller.sensors cont) in
  (state = "LOGIC_AND"%string -> controller_brick_status owner name = Ok all)
  /\ (state = "LOGIC_OR"%string -> controller_brick_status owner name = Ok any)
  /\ (state = "LOGIC_NAND"%string ->
      controller_brick_status owner name = Ok (negb all))
  /\ (state = "LOGIC_NOR"%string ->
      controller_brick_status owner name = Ok (negb any)).
Proof.
  intros Hcont Hstate Hsens. unfold controller_brick_status, subscript.
  rewrite Hcont, Hstate. simpl.
  destruct (Controller.sensors cont) as [|first rest] eqn:Hs; [done|].
  rewrite <- Hs.
  repeat split; intros ->; simpl;
    rewrite ?py_in_false, ?py_in_true, ?forallb_positives, ?existsb_positives,
      ?negb_involutive; done.
Qed.

Lemma mod2_even (n : nat) : (n mod 2 =? 0) = Nat.even n.
Proof.
  destruct (Nat.even n) eqn:He.
  - apply Nat.even_spec in He as [k ->]. apply Nat.eqb_eq.
    rewrite Nat.mul_comm. apply Nat.Div0.mod_mul.
  - apply Nat.eqb_neq. intros Hmod.
    apply Nat.Div0.mod_divides in Hmod as [k ->].
    by rewrite Nat.even_mul in He.
Qed.

(** X16.  For a controller with at least one sensor, the status of an
    XOR brick is [True] exactly when the number of positive sensors is
    odd, and that of an XNOR brick exactly when all sensors agree. *)
Theorem brick_status_parity (owner : Owner) (name : string)
  (cont : Controller.t) (state : string) :
  controllers owner !! name = Some cont ->
  game_controllers owner !! name = Some state ->
  Controller.sensors cont <> [] ->
  (state = "LOGIC_XOR"%string ->
   controller_brick_status owner name
   = Ok (Nat.odd (length (filter (fun sens => Sensor.positive sens = true)
                            (Controller.sensors cont)))))
  /\ (state = "LOGIC_XNOR"%string ->
      exists b,
        controller_brick_status owner name = Ok b
        /\ (b = true <->
            forall s1 s2, s1 ∈ Controller.sensors cont ->
                          s2 ∈ Controller.sensors cont ->
                          Sensor.positive s1 = Sensor.positive s2)).
Proof.
  intros Hcont Hstate Hsens. unfold controller_brick_status, subscript.
  rewrite Hcont, Hstate. simpl.
  destruct (Controller.sensors cont) as [|first rest] eqn:Hs; [done|].
  rewrite <- Hs. split; intros ->; simpl.
  - f_equal. unfold py_count, positives.
    generalize (Controller.sensors cont). intros l.
    assert (count_occ Bool.bool_dec (map Sensor.positive l) true
            = length (filter (fun sens => Sensor.positive sens = true) l)) as ->.
    { induction l as [|a l IH]; [done|]. simpl.
      destruct (Sensor.positive a) eqn:Ha; simpl.
      - rewrite filter_cons_True by done. simpl. by rewrite IH.
      - rewrite filter_cons_False by (rewrite Ha; done). done. }
    rewrite <- Nat.negb_even. f_equal. apply mod2_even.
  - eexists. split; [done|].
    rewrite py_in_false, negb_involutive, forallb_forall.
    rewrite Hs. split.
    + intros Hall s1 s2 H1 H2.
      assert (forall x, x ∈ first :: rest ->
                        Sensor.positive x = Sensor.positive first) as Heq.
      { intros x Hx. apply Bool.eqb_prop, Hall, in_map_iff.
        exists x. split; [done|]. by apply list_elem_of_In. }
      by rewrite (Heq s1), (Heq s2).
    + intros Hall b [x [<- Hx]]%in_map_iff.
      apply Bool.eqb_true_iff, Hall; [by apply list_elem_of_In|].
      apply list_elem_of_here.
Qed.

(** X17.  Writing [bevel_depth] of a curve wrapper and reading it back
    gives the value written, and the wrapper's [name] reads as
    before. *)
Theorem curve_bevel_depth_round_trip (c : ULCurve.t) (v : PyVal)
  (e e' : Engine) :
  ULCurve.set_bevel_depth c v e = Ok e' ->
  ULCurve.bevel_depth c e' = Ok v /\ ULCurve.name c e' = ULCurve.name c e.
Proof.
  unfold ULCurve.set_bevel_depth, ULCurve.bevel_depth, ULCurve.name.
  intros (bo & Hbo & (d & Hd & Hset)%Res_bind_Ok)%Res_bind_Ok.
  apply setattr_Ok in Hset as (r & -> & _ & ->).
  rewrite !getattr_after_write by done. rewrite Hbo. simpl.
  rewrite getattr_after_write by done. rewrite Hd. simpl.
  split; [apply getattr_set_attrs_eq | done].
Qed.

End brick_more.

Lemma brick_status_all_any_witness :
  let owner := Examples.gate_owner "LOGIC_NAND" in
  let cont := Examples.gate_controller in
  let all := forallb Objects.Sensor.positive (Objects.Controller.sensors cont) in
  let any := existsb Objects.Sensor.positive (Objects.Controller.sensors cont) in
  ("LOGIC_NAND"%string = "LOGIC_AND"%string ->
   Objects.controller_brick_status owner "Gate" = Ok all)
  /\ ("LOGIC_NAND"%string = "LOGIC_OR"%string ->
      Objects.controller_brick_status owner "Gate" = Ok any)
  /\ ("LOGIC_NAND"%string = "LOGIC_NAND"%string ->
      Objects.controller_brick_status owner "Gate" = Ok (negb all))
  /\ ("LOGIC_NAND"%string = "LOGIC_NOR"%string ->
      Objects.controller_brick_status owner "Gate" = Ok (negb any)).
Proof.
  apply (brick_status_all_any (Examples.gate_owner "LOGIC_NAND") "Gate"
           Examples.gate_controller "LOGIC_NAND");
    [vm_compute; reflexivity | vm_compute; reflexivity | discriminate].
Defined.

Lemma brick_status_parity_witness :
  let owner := Examples.gate_owner "LOGIC_XOR" in
  let cont := Examples.gate_controller in
  ("LOGIC_XOR"%string = "LOGIC_XOR"%string ->
   Objects.controller_brick_status owner "Gate"
   = Ok (Nat.odd (length (filter (fun sens => Objects.Sensor.positive sens = true)
                            (Objects.Controller.sensors cont)))))
  /\ ("LOGIC_XOR"%string = "LOGIC_XNOR"%string ->
      exists b,
        Objects.controller_brick_status owner "Gate" = Ok b
        /\ (b = true <->
            forall s1 s2, s1 ∈ Objects.Controller.sensors cont ->
                          s2 ∈ Objects.Controller.sensors cont ->
                          Objects.Sensor.positive s1 = Objects.Sensor.positive s2)).
Proof.
  apply (brick_status_parity (Examples.gate_owner "LOGIC_XOR") "Gate"
           Examples.gate_controller "LOGIC_XOR");
    [vm_compute; reflexivity | vm_compute; reflexivity | discriminate].
Defined.

Lemma curve_bevel_depth_round_trip_witness :
  exists e',
    Objects.ULCurve.set_bevel_depth (Objects.ULCurve.mk (PRef 5)) (PFloat 2)
      Examples.curve_engine = Ok e'
    /\ Objects.ULCurve.bevel_depth (Objects.ULCurve.mk (PRef 5)) e'
       = Ok (PFloat 2)
    /\ Objects.ULCurve.name (Objects.ULCurve.mk (PRef 5)) e'
       = Objects.ULCurve.name (Objects.ULCurve.mk (PRef 5)) Examples.curve_engine.
Proof.
  eexists. split; [vm_compute; reflexivity|].
  apply (curve_bevel_depth_round_trip (Objects.ULCurve.mk (PRef 5)) (PFloat 2)
           Examples.curve_engine).
  vm_compute; reflexivity.
Defined.

(** ** The action nodes, continued *)

Section node_status.
Import Nodes.
Context `{RT : Runtime}.

(** X18.  An evaluator never touches its sockets, and it marks the node
    ready exactly when the condition is met and, for the two writing
    nodes, no input is waiting: also when the call then stops at an
    invalid armature or camera, or when the host raises. *)
Theorem evaluate_marks_ready
  (b : ULSetBoneConstraintInfluence.t) (c : ULSetCameraOrthoScale.t)
  (p : ULPrintValue.t) (e : Engine) :
  (let n := node (ULSetBoneConstraintInfluence.evaluate b e) in
   ULSetBoneConstraintInfluence.condition n = ULSetBoneConstraintInfluence.condition b
   /\ ULSetBoneConstraintInfluence.armature n = ULSetBoneConstraintInfluence.armature b
   /\ ULSetBoneConstraintInfluence.bone n = ULSetBoneConstraintInfluence.bone b
   /\ ULSetBoneConstraintInfluence.constraint n
      = ULSetBoneConstraintInfluence.constraint b
   /\ ULSetBoneConstraintInfluence.influence n
      = ULSetBoneConstraintInfluence.influence b
   /\ ULSetBoneConstraintInfluence.base n
      = if not_met [get_input e (ULSetBoneConstraintInfluence.condition b)]
           || is_waiting
                [get_input e (ULSetBoneConstraintInfluence.armature b);
                 get_input e (ULSetBoneConstraintInfluence.bone b);
                 get_input e (ULSetBoneConstraintInfluence.constraint b);
                 get_input e (ULSetBoneConstraintInfluence.influence b)]
        then ULSetBoneConstraintInfluence.base b
        else _set_ready (ULSetBoneConstraintInfluence.base b))
  /\
  (let n := node (ULSetCameraOrthoScale.evaluate c e) in
   ULSetCameraOrthoScale.condition n = ULSetCameraOrthoScale.condition c
   /\ ULSetCameraOrthoScale.camera n = ULSetCameraOrthoScale.camera c
   /\ ULSetCameraOrthoScale.scale n = ULSetCameraOrthoScale.scale c
   /\ ULSetCameraOrthoScale.base n
      = if not_met [get_input e (ULSetCameraOrthoScale.condition c)]
           || is_waiting [get_input e (ULSetCameraOrthoScale.camera c);
                          get_input e (ULSetCameraOrthoScale.scale c)]
        then ULSetCameraOrthoScale.base c
        else _set_ready (ULSetCameraOrthoScale.base c))
  /\
  (let n := node (ULPrintValue.evaluate p e) in
   ULPrintValue.condition n = ULPrintValue.condition p
   /\ ULPrintValue.value n = ULPrintValue.value p
   /\ ULPrintValue.msg_type n = ULPrintValue.msg_type p
   /\ ULPrintValue.base n
      = if not_met [get_input e (ULPrintValue.condition p)]
        then ULPrintValue.base p
        else _set_ready (ULPrintValue.base p)).
Proof.
  split; [|split].
  - unfold ULSetBoneConstraintInfluence.evaluate,
      ULSetBoneConstraintInfluence.evaluate_with; simpl.
    destruct (not_met _); simpl; [done|].
    destruct (is_waiting _); simpl; [done|].
    destruct (is_invalid _ _); simpl; [done|].
    destruct (_ ≫= _); done.
  - unfold ULSetCameraOrthoScale.evaluate,
      ULSetCameraOrthoScale.evaluate_with; simpl.
    destruct (not_met _); simpl; [done|].
    destruct (is_waiting _); simpl; [done|].
    destruct (is_invalid _ _); simpl; [done|].
    destruct (setattr _ _ _ _); done.
  - unfold ULPrintValue.evaluate; simpl.
    destruct (not_met _); done.
Qed.

End node_status.

(** ** Widgets *)

Section button_properties.
Import Ui Ui.Button.

(** X19.  After every [draw] of a button: it is in focus exactly when
    the pointer is over it; it is never both clicked and released; a
    click needs the pointer over it and the mouse button held, and
    leaves the button down and the click consumed; a release needs the
    mouse button up and the button down before, and leaves the button
    up and the click free.  Of the click callbacks exactly one is
    called, or none when the button is up and not clicked. *)
Theorem button_draw_flags (children : Canvas -> Canvas) (hover lmb : bool)
  (b : t) (canvas : Canvas) :
  let '(b', canvas', calls) := draw children hover lmb b canvas in
  _in_focus b' = hover
  /\ _clicked b' && _released b' = false
  /\ implb (_clicked b')
       (hover && lmb && _down b' && _click_consumed canvas') = true
  /\ implb (_released b')
       (negb lmb && _down b && negb (_down b')
        && negb (_click_consumed canvas')) = true
  /\ clicks calls
     = if _clicked b' then [on_click]
       else if _released b' then [on_release]
       else if _down b' then [on_hold]
       else [].
Proof.
  unfold draw.
  destruct hover, lmb, (_down b) eqn:Hdown;
    destruct (_click_consumed (children _)) eqn:Hc; simpl;
    rewrite ?Hdown, ?Hc; done.
Qed.

Lemma clicks_app (l1 l2 : list Call) : clicks (l1 ++ l2) = clicks l1 ++ clicks l2.
Proof. apply List.filter_app. Qed.

Lemma draw_while_held (hover : bool) (b : t) (canvas : Canvas) :
  _down b = true -> _click_consumed canvas = true ->
  let '(b', canvas', calls) := draw (fun c => c) hover true b canvas in
  _down b' = true /\ _click_consumed canvas' = true /\ clicks calls = [on_hold].
Proof.
  intros Hdown Hc. unfold draw.
  destruct hover; simpl; rewrite ?Hc, ?Hdown; simpl; done.
Qed.

Lemma draw_let_go (hover : bool) (b : t) (canvas : Canvas) :
  _down b = true ->
  let '(b', canvas', calls) := draw (fun c => c) hover false b canvas in
  _down b' = false /\ _released b' = true /\ _click_consumed canvas' = false
  /\ clicks calls = [on_release].
Proof.
  intros Hdown. unfold draw.
  destruct hover; simpl; rewrite ?Hdown; simpl; done.
Qed.

Lemma frames_held (hs : list bool) (last : bool) :
  forall b canvas,
    _down b = true -> _click_consumed canvas = true ->
    let '(b', canvas', calls) :=
      frames (fun c => c) (map (fun h => (h, true)) hs ++ [(last, false)])
        b canvas in
    clicks calls = repeat on_hold (length hs) ++ [on_release]
    /\ _down b' = false /\ _released b' = true
    /\ _click_consumed canvas' = false.
Proof.
  induction hs as [|h hs IH]; intros b canvas Hdown Hc.
  - cbn [map app frames length repeat].
    pose proof (draw_let_go last b canvas Hdown) as Hgo.
    destruct (draw _ last false b canvas) as [[b' canvas'] calls].
    destruct Hgo as (? & ? & ? & Hcalls).
    by rewrite app_nil_r, Hcalls.
  - cbn [map app frames length repeat].
    pose proof (draw_while_held h b canvas Hdown Hc) as Hheld.
    destruct (draw _ h true b canvas) as [[b1 canvas1] calls1].
    destruct Hheld as (Hdown1 & Hc1 & Hcalls1).
    specialize (IH b1 canvas1 Hdown1 Hc1).
    destruct (frames _ _ b1 canvas1) as [[b' canvas'] calls].
    destruct IH as (Hcalls & ? & ? & ?).
    by rewrite clicks_app, Hcalls1, Hcalls.
Qed.

(** X20.  A button without widgets inside, pressed while the click is
    free, held for any number of frames and let go, calls [on_click]
    once, [on_hold] once per frame held and [on_release] once, wherever
    the pointer moves after the press; it ends up released, up, and
    with the click free again. *)
Theorem button_press_hold_release (b : t) (canvas : Canvas)
  (hs : list bool) (last : bool) :
  _click_consumed canvas = false ->
  let '(b', canvas', calls) :=
    frames (fun c => c)
      ((true, true) :: map (fun h => (h, true)) hs ++ [(last, false)])
      b canvas in
  clicks calls = [on_click] ++ repeat on_hold (length hs) ++ [on_release]
  /\ _down b' = false /\ _released b' = true
  /\ _click_consumed canvas' = false.
Proof.
  intros Hfree. cbn [frames].
  assert (draw (fun c => c) true true b canvas
          = (with_flags b true false true true,
             mkCanvas true true,
             [on_hover; line_width_set (border_width b);
              point_size_set (border_width b);
              uniform_float "color" (hover_color b); batch_draw;
              uniform_float "color" (border_color b); batch_line_draw;
              batch_points_draw; widget_draw; on_click])) as ->.
  { unfold draw. simpl. by rewrite Hfree. }
  pose proof (frames_held hs last (with_flags b true false true true)
                (mkCanvas true true) eq_refl eq_refl) as Hheld.
  destruct (frames _ _ _ _) as [[b' canvas'] calls].
  destruct Hheld as (Hcalls & ? & ? & ?).
  rewrite clicks_app, Hcalls. done.
Qed.

End button_properties.

Lemma button_press_hold_release_witness :
  let b := Ui.Button.mk [0; 0; 0; 0]%R [0; 0; 0; 0.5]%R [0; 0; 0; 0]%R 1
             false false false false in
  let '(b', canvas', calls) :=
    Ui.Button.frames (fun c => c)
      ((true, true) :: map (fun h => (h, true)) [true; false]
       ++ [(false, false)])
      b (Ui.mkCanvas false false) in
  Ui.Button.clicks calls
  = [Ui.on_click] ++ repeat Ui.on_hold (length [true; false]) ++ [Ui.on_release]
  /\ Ui.Button._down b' = false /\ Ui.Button._released b' = true
  /\ Ui._click_consumed canvas' = false.
Proof.
  apply (button_press_hold_release
           (Ui.Button.mk [0; 0; 0; 0]%R [0; 0; 0; 0.5]%R [0; 0; 0; 0]%R 1
              false false false false)
           (Ui.mkCanvas false false) [true; false] false).
  reflexivity.
Defined.

Section label_button_properties.
Import Ui Ui.LabelButton.

(** X21.  [font_size] of a [LabelButton] reads the text.  A value
    written to [font_size] does reach the label's [font_size], but no
    property of the button reads it back: every property, [font_size]
    included, reads as before the write. *)
Theorem label_button_font_size_reads_text (lb : t) (val : PyVal) :
  get p_font_size lb = get p_text lb
  /\ font_size (label (set p_font_size val lb)) = val
  /\ forall q, get q (set p_font_size val lb) = get q lb.
Proof. split; [done|]. split; [done|]. by intros []. Qed.

(** X22.  Every other property of a [LabelButton] reads back what was
    written to it, and a write to it leaves the other properties as
    they were, but for [font_size], which follows [text]. *)
Theorem label_button_write_then_read (p : Property) (val : PyVal) (lb : t) :
  p <> p_font_size ->
  get p (set p val lb) = val
  /\ (forall q, q <> p -> q <> p_font_size ->
                get q (set p val lb) = get q lb)
  /\ get p_font_size (set p val lb)
     = match p with p_text => val | _ => get p_font_size lb end.
Proof.
  intros Hp.
  destruct p; try done;
    (split; [done|]); (split; [by intros []|]); done.
Qed.

End label_button_properties.

Lemma label_button_write_then_read_witness :
  let lb := Ui.LabelButton.mk
              (Ui.Button.mk [] [] [] 1 false false false false)
              (Ui.LabelButton.mkLabel (PStr "Play") PNone PNone (PFloat 12)
                 PNone PNone PNone PNone) in
  Ui.LabelButton.get Ui.LabelButton.p_text
    (Ui.LabelButton.set Ui.LabelButton.p_text (PStr "Stop") lb) = PStr "Stop"
  /\ (forall q, q <> Ui.LabelButton.p_text -> q <> Ui.LabelButton.p_font_size ->
                Ui.LabelButton.get q
                  (Ui.LabelButton.set Ui.LabelButton.p_text (PStr "Stop") lb)
                = Ui.LabelButton.get q lb)
  /\ Ui.LabelButton.get Ui.LabelButton.p_font_size
       (Ui.LabelButton.set Ui.LabelButton.p_text (PStr "Stop") lb)
     = PStr "Stop".
Proof.
  apply (label_button_write_then_read Ui.LabelButton.p_text (PStr "Stop")
           (Ui.LabelButton.mk
              (Ui.Button.mk [] [] [] 1 false false false false)
              (Ui.LabelButton.mkLabel (PStr "Play") PNone PNone (PFloat 12)
                 PNone PNone PNone PNone))).
  discriminate.
Defined.

Section cursor_properties.
Import Ui Ui.Cursor.

Lemma remove_None (x : nat) (l : list nat) : x ∉ l -> remove x l = None.
Proof.
  induction l as [|y l IH]; [done|]. intros Hx.
  apply not_elem_of_cons in Hx as [Hne Hx]. simpl.
  rewrite decide_False by done. by rewrite IH.
Qed.

Lemma remove_Some (x : nat) (l : list nat) :
  x ∈ l ->
  exists l',
    remove x l = Some l'
    /\ l ≡ₚ x :: l'
    /\ filter (fun y => y <> x) l' = filter (fun y => y <> x) l.
Proof.
  induction l as [|y l IH]; [by intros ?%elem_of_nil|].
  intros Hx. simpl. destruct (decide (y = x)) as [->|Hne].
  - exists l. repeat split; [done|]. by rewrite filter_cons_False by (intros H; by apply H).
  - apply elem_of_cons in Hx as [->|Hx]; [done|].
    destruct (IH Hx) as (l' & -> & Hperm & Hfilter).
    exists (y :: l'). repeat split.
    + rewrite Hperm. apply Permutation_swap.
    + by rewrite !filter_cons_True, Hfilter by done.
Qed.


(** X24.  Drawing a cursor whose callback is not in the scene's
    [post_draw] raises: [IndexError] when the list is empty,
    [ValueError] otherwise. *)
Theorem cursor_draw_unregistered (c : t) (mouse : R * R)
  (post_draw : list nat) :
  draw_callback c ∉ post_draw ->
  draw c mouse post_draw
  = inr (match post_draw with [] => IndexError | _ :: _ => ValueError end).
Proof.
  intros Hout. unfold draw. destruct post_draw as [|f rest]; [done|].
  by rewrite remove_None.
Qed.

End cursor_properties.


Lemma cursor_draw_unregistered_witness :
  Ui.Cursor.draw (Ui.Cursor.mk true (0%R, 0%R) 3) (0.5%R, 0.5%R) [1; 2]
  = inr Ui.Cursor.ValueError.
Proof.
  apply (cursor_draw_unregistered (Ui.Cursor.mk true (0%R, 0%R) 3)
           (0.5%R, 0.5%R) [1; 2]).
  intros H. by repeat (apply elem_of_cons in H as [H|H]; [done|]);
    apply elem_of_nil in H.
Defined.

(** ** The light wrapper, continued *)

Section light_more.
Import Lights.
Variable setParent : Engine -> PyVal -> PyVal -> Res Engine.

Lemma bind_Ok {A B} (a : A) (f : A -> Res B) : Ok a ≫= f = f a.
Proof. reflexivity. Qed.

Lemma get_data_field (p : Property) (name : string) (L : ULLight) (e : Engine) :
  data_field p = Some name ->
  get p L e = (d ← data L e; getattr e d name)
  /\ (forall v, set setParent p v L e = (d ← data L e; setattr e d name v))
  /\ name <> "blenderObject"%string /\ name <> "data"%string.
Proof. destruct p; intros [= <-]; done. Qed.


Variable copy : Engine -> PyVal -> Res (PyVal * Engine).


End light_more.


Lemma twin_lights_fresh_copy :
  Lights.fresh_copy Examples.twin_lights 2 3 Examples.twin_lights_copied.
Proof.
  assert (forall a, attrs Examples.twin_lights !! (3%nat, a) = None) as Hfresh.
  { intros a. unfold Examples.twin_lights; simpl.
    rewrite !lookup_insert_ne by congruence. apply lookup_empty. }
  split; [done|]. split.
  - intros a. unfold Examples.twin_lights_copied; simpl.
    destruct (decide (a = "energy"%string)) as [->|Hne].
    + rewrite lookup_insert_eq. vm_compute. reflexivity.
    + rewrite lookup_insert_ne by congruence. rewrite Hfresh.
      unfold Examples.twin_lights; simpl.
      rewrite !lookup_insert_ne by congruence. symmetry. apply lookup_empty.
  - intros r a Hr. unfold Examples.twin_lights_copied; simpl.
    rewrite lookup_insert_ne by congruence. done.
Qed.

